(** * DAV MCP server: a shallow embedding of [index.js]

    The program is one Node.js script.  It reads three environment
    variables, builds up to three [DAVClient] handles for the selected
    provider, registers four or six tools on an MCP server and then serves
    tool calls.  Every tool handler is an [async] function that awaits
    calls on a [DAVClient] (the [tsdav] library) inside a [try]/[catch].

    The embedding follows the script top to bottom:
    - [JS]       the fragment of JavaScript values and built-ins the script
                 uses (strings, truthiness, property access, [JSON.stringify]);
    - [Run]      a state monad with abrupt completion, for the bodies of the
                 handlers and for the script itself;
    - [Tsdav]    the [DAVClient] handle and the calls made on it, answered by
                 an arbitrary stateful collaborator;
    - [Handlers] the six handlers;
    - [Startup]  the top-level statements: environment, provider branches,
                 tool registration, and the serving of requests;
    - [Spec]     the notions the specification speaks in (joining with one
                 separator, identifiers that differ only in case, well-formed
                 envelopes);
    - [Sample]   concrete collaborators and inputs.

    The properties follow the modules.  Those that settle a claim of the
    specification carry its number (C1 to C10) in their comment, the
    further properties of the code a number of their own (X1 to X20).

    The second script of the repository differs from [index.js] only in the
    names under which the tools are registered (they carry the provider
    name), in the description strings and in some log labels; its names are
    given by [Startup.qualified_tool_name]. *)

From Stdlib Require Import String Ascii ZArith List Bool Lia DecimalString FinFun.
Import ListNotations.
Open Scope string_scope.
Set Warnings "-register-all".

(* ===================================================================== *)
(** * JavaScript values and built-ins *)
(* ===================================================================== *)

Module JS.

(** ** Strings

    A JavaScript string is modelled as a [string] of bytes (its UTF-8
    encoding).  Every separator and letter the script inspects is ASCII. *)

(** [s.startsWith(c)] for a one-character [c]. *)
Definition startsWith (s : string) (c : ascii) : bool :=
  match s with
  | EmptyString => false
  | String a _ => Ascii.eqb a c
  end.

(** [s.endsWith(c)] for a one-character [c]. *)
Fixpoint endsWith (s : string) (c : ascii) : bool :=
  match s with
  | EmptyString => false
  | String a EmptyString => Ascii.eqb a c
  | String _ rest => endsWith rest c
  end.

(** [s.slice(0, -1)]: all but the last character. *)
Fixpoint slice_0_minus1 (s : string) : string :=
  match s with
  | EmptyString => EmptyString
  | String _ EmptyString => EmptyString
  | String a rest => String a (slice_0_minus1 rest)
  end.

(** [s.substring(1)]: all but the first character. *)
Definition substring_1 (s : string) : string :=
  match s with
  | EmptyString => EmptyString
  | String _ rest => rest
  end.

(** [s.includes(needle)]. *)
Fixpoint includes (s needle : string) : bool :=
  String.prefix needle s ||
  match s with
  | EmptyString => false
  | String _ rest => includes rest needle
  end.

Definition is_upper (a : ascii) : bool :=
  let n := nat_of_ascii a in (65 <=? n)%nat && (n <=? 90)%nat.

Definition lower_ascii (a : ascii) : ascii :=
  if is_upper a then ascii_of_nat (nat_of_ascii a + 32) else a.

(** [s.toLowerCase()] of an ASCII string: the letters A-Z are mapped to
    a-z and every other byte is kept.  On a string with characters outside
    ASCII the built-in lower-cases those too and this function does not; it
    still decides the same way whether the result is ["fastmail"] or
    ["icloud"], which is all the branches of the script ask: apart from
    U+212A (whose lower case is [k], a letter of neither name) no character
    outside A-Z has an ASCII letter as its lower case.  What is stated of
    the lower-cased text itself is stated of ASCII strings
    ([Spec.ascii_only]). *)
Fixpoint toLowerCase (s : string) : string :=
  match s with
  | EmptyString => EmptyString
  | String a rest => String (lower_ascii a) (toLowerCase rest)
  end.

(** ** Values *)

(** The values that flow through the script: what a rejected promise can
    carry, and the records the collaborator returns.  [VErr] is an instance
    of [Error]: its [message] is not enumerable, [props] are its own
    enumerable properties.

    These are plain data only.  There is no [BigInt], no object with a
    cycle, no accessor property and no [toJSON] method: the values on which
    [JSON.stringify] throws, or runs code of the value's own, are not
    represented, and nothing below speaks of them.  Numbers are the integers,
    read as the JavaScript numbers of magnitude below 1e21. *)
Inductive value : Type :=
| VUndefined
| VNull
| VBool (b : bool)
| VNum (n : Z)
| VStr (s : string)
| VArr (items : list value)
| VObj (props : list (string * value))
| VErr (message : string) (props : list (string * value)).

(** A plain object, as an ordered list of its own enumerable properties. *)
Definition object : Type := list (string * value).

(** ToBoolean. *)
Definition truthy (v : value) : bool :=
  match v with
  | VUndefined | VNull => false
  | VBool b => b
  | VNum n => negb (n =? 0)%Z
  | VStr s => negb (s =? "")
  | VArr _ | VObj _ | VErr _ _ => true
  end.

(** [a || b]. *)
Definition or_else (a b : value) : value := if truthy a then a else b.

(** ToBoolean of a string-or-undefined argument. *)
Definition truthy_arg (a : option string) : bool :=
  match a with
  | None => false
  | Some s => negb (s =? "")
  end.

Fixpoint lookup (key : string) (props : object) : value :=
  match props with
  | [] => VUndefined
  | (k, v) :: rest => if k =? key then v else lookup key rest
  end.

(** A completion: a normal value or a thrown one. *)
Inductive completion (A : Type) : Type :=
| Normal (a : A)
| Throw (e : value).
Arguments Normal {A} a.
Arguments Throw {A} e.

(** The [TypeError] of a property read on [undefined] or [null] (the
    wording is V8's). *)
Definition cannot_read (of_what prop : string) : value :=
  VErr ("Cannot read properties of " ++ of_what ++ " (reading '" ++ prop ++ "')") [].

(** [v.prop] for a data property [prop] that no built-in prototype
    defines with a truthy value ([message], [url]).  On [undefined] and
    [null] the read throws; a primitive or an array has no such property;
    an [Error] has its [message]. *)
Definition get (v : value) (prop : string) : completion value :=
  match v with
  | VUndefined => Throw (cannot_read "undefined" prop)
  | VNull => Throw (cannot_read "null" prop)
  | VBool _ | VNum _ | VStr _ | VArr _ => Normal VUndefined
  | VObj props => Normal (lookup prop props)
  | VErr message props =>
      if prop =? "message" then Normal (VStr message) else Normal (lookup prop props)
  end.

(** [v === s] for a string [s]. *)
Definition strict_eq_string (v : value) (s : string) : bool :=
  match v with
  | VStr s' => s' =? s
  | _ => false
  end.

(** ** JSON.stringify *)

Definition dquote : string := String (ascii_of_nat 34) "".
Definition newline : string := String (ascii_of_nat 10) "".

Definition hex_digit (n : nat) : ascii :=
  if (n <? 10)%nat then ascii_of_nat (48 + n) else ascii_of_nat (87 + n).

Definition quote_char (a : ascii) : string :=
  let n := nat_of_ascii a in
  if (n =? 34)%nat then "\" ++ dquote else
  if (n =? 92)%nat then "\\" else
  if (n =? 8)%nat then "\b" else
  if (n =? 9)%nat then "\t" else
  if (n =? 10)%nat then "\n" else
  if (n =? 12)%nat then "\f" else
  if (n =? 13)%nat then "\r" else
  if (n <? 32)%nat
  then "\u00" ++ String (hex_digit (n / 16)) (String (hex_digit (n mod 16)) "")
  else String a "".

Fixpoint quote_chars (s : string) : string :=
  match s with
  | EmptyString => EmptyString
  | String a rest => quote_char a ++ quote_chars rest
  end.

(** QuoteJSONString. *)
Definition QuoteJSONString (s : string) : string :=
  dquote ++ quote_chars s ++ dquote.

(** Number::toString of an integer.  JavaScript prints an integer of
    magnitude below 1e21 in decimal, as here; from 1e21 on it prints an
    exponent, which is not modelled. *)
Definition number_to_string (n : Z) : string :=
  NilZero.string_of_int (Z.to_int n).

Fixpoint join (sep : string) (parts : list string) : string :=
  match parts with
  | [] => ""
  | [p] => p
  | p :: rest => p ++ sep ++ join sep rest
  end.

(** The brackets around the serialised members of an array or object. *)
Definition enclose (open close gap stepback indent : string)
    (partial : list string) : string :=
  match partial with
  | [] => open ++ close
  | _ =>
      if gap =? ""
      then open ++ join "," partial ++ close
      else open ++ newline ++ indent
           ++ join ("," ++ newline ++ indent) partial
           ++ newline ++ stepback ++ close
  end.

(** SerializeJSONProperty, with [None] for [undefined]. *)
Fixpoint SerializeJSONProperty (gap indent : string) (v : value)
    {struct v} : option string :=
  let members :=
    fix members (inner : string) (props : list (string * value)) : list string :=
      match props with
      | [] => []
      | (k, x) :: rest =>
          match SerializeJSONProperty gap inner x with
          | Some s =>
              (QuoteJSONString k ++ ":" ++ (if gap =? "" then "" else " ") ++ s)
              :: members inner rest
          | None => members inner rest
          end
      end in
  match v with
  | VUndefined => None
  | VNull => Some "null"
  | VBool true => Some "true"
  | VBool false => Some "false"
  | VNum n => Some (number_to_string n)
  | VStr s => Some (QuoteJSONString s)
  | VArr items =>
      let inner := indent ++ gap in
      let elements :=
        (fix elements (xs : list value) : list string :=
           match xs with
           | [] => []
           | x :: rest =>
               match SerializeJSONProperty gap inner x with
               | Some s => s
               | None => "null"
               end :: elements rest
           end) items in
      Some (enclose "[" "]" gap indent inner elements)
  | VObj props | VErr _ props =>
      let inner := indent ++ gap in
      Some (enclose "{" "}" gap indent inner (members inner props))
  end.

(** [JSON.stringify(v)]. *)
Definition JSON_stringify (v : value) : option string :=
  SerializeJSONProperty "" "" v.

(** [JSON.stringify(v, null, 2)]. *)
Definition JSON_stringify_2 (v : value) : option string :=
  SerializeJSONProperty "  " "" v.

(** A value substituted into a template literal: [undefined] reads
    ["undefined"]. *)
Definition template (s : option string) : string :=
  match s with
  | Some s => s
  | None => "undefined"
  end.

End JS.

(* ===================================================================== *)
(** * State and abrupt completion *)
(* ===================================================================== *)

(** A computation over a state [S] that either completes with a value or
    stops abruptly with an [E].  The handlers use it with thrown values
    for [E] ([await] on a rejected promise throws); the top-level script
    uses it with [process.exit] and uncaught exceptions for [E]. *)
Module Run.

Definition M (S E A : Type) : Type := S -> (A + E) * S.

Definition ret {S E A} (a : A) : M S E A := fun st => (inl a, st).

Definition bind {S E A B} (m : M S E A) (k : A -> M S E B) : M S E B :=
  fun st =>
    match m st with
    | (inl a, st') => k a st'
    | (inr e, st') => (inr e, st')
    end.

Definition abort {S E A} (e : E) : M S E A := fun st => (inr e, st).

Definition modify {S E} (f : S -> S) : M S E unit := fun st => (inl tt, f st).

(** [try { body } catch (e) { handler e }]. *)
Definition try_catch {S E A} (body : M S E A) (handler : E -> M S E A) : M S E A :=
  fun st =>
    match body st with
    | (inl a, st') => (inl a, st')
    | (inr e, st') => handler e st'
    end.

End Run.

Declare Scope run_scope.
Delimit Scope run_scope with run.
Notation "x <- m ;; k" := (Run.bind m (fun x => k))
  (at level 61, m at next level, right associativity) : run_scope.
Notation "m ;; k" := (Run.bind m (fun _ => k))
  (at level 61, right associativity) : run_scope.

(* ===================================================================== *)
(** * The DAV client collaborator *)
(* ===================================================================== *)

Module Tsdav.
Import JS.

Record Credentials : Type := {
  username : string;
  password : string
}.

(** What [new DAVClient({...})] is given.  Construction performs no call. *)
Record DAVClient : Type := {
  serverUrl : string;
  credentials : Credentials;
  authMethod : string;
  defaultAccountType : string
}.

(** [{ start: timeRangeStart, end: timeRangeEnd }]: each field holds the
    argument as it was received, a string or [undefined]. *)
Record TimeRange : Type := {
  range_start : option string;
  range_end : option string
}.

(** [{ calendar }], with [timeRange] set or left out. *)
Record FetchOptions : Type := {
  calendar : object;
  timeRange : option TimeRange
}.

(** The calls the handlers make on a client. *)
Inductive call : Type :=
| Login (client : DAVClient)
| FetchCalendars (client : DAVClient)
| FetchCalendarObjects (client : DAVClient) (options : FetchOptions)
| FetchAddressBooks (client : DAVClient)
| FetchVCards (client : DAVClient) (addressBook : object)
| FetchObjects (client : DAVClient) (collection : string).

(** The collaborator: for each method, what the awaited promise settles
    to in a world [W], and the world after.  A fulfilled promise carries
    what the method's signature declares (nothing for [login], an array of
    records for the fetches); a rejected one carries any value. *)
Record Collaborator (W : Type) : Type := {
  login : DAVClient -> W -> completion unit * W;
  fetchCalendars : DAVClient -> W -> completion (list object) * W;
  fetchCalendarObjects : DAVClient -> FetchOptions -> W -> completion (list object) * W;
  fetchAddressBooks : DAVClient -> W -> completion (list object) * W;
  fetchVCards : DAVClient -> object -> W -> completion (list object) * W;
  fetchObjects : DAVClient -> string -> W -> completion (list object) * W
}.
Arguments login {W}.
Arguments fetchCalendars {W}.
Arguments fetchCalendarObjects {W}.
Arguments fetchAddressBooks {W}.
Arguments fetchVCards {W}.
Arguments fetchObjects {W}.

End Tsdav.

(* ===================================================================== *)
(** * The tool handlers *)
(* ===================================================================== *)

Module Handlers.
Import JS Tsdav.
Local Open Scope run_scope.

(** [{ type: "text", text }]; [text] is a string, or [undefined] where
    [JSON.stringify] gave that. *)
Record ContentBlock : Type := {
  type : string;
  text : option string
}.

(** What a handler returns: [{ content: [...] }] on success, with
    [isError: true] added on failure. *)
Record Envelope : Type := {
  content : list ContentBlock;
  isError : option bool
}.

Definition success (t : option string) : Envelope :=
  {| content := [ {| type := "text"; text := t |} ]; isError := None |}.

Definition failure (t : string) : Envelope :=
  {| content := [ {| type := "text"; text := Some t |} ]; isError := Some true |}.

(** [JSON.stringify(records, null, 2)] of an array of records. *)
Definition pretty (records : list object) : option string :=
  JSON_stringify_2 (VArr (map VObj records)).

Section WithCollaborator.

Context {W : Type} (tsdav : Collaborator W).

(** What a handler runs against: the collaborator's world, the calls made
    on it so far (oldest first), the reasons of the rejections those calls
    ended in (bookkeeping for the statements below, the script has no such
    list) and what [console.error] has written. *)
Record State : Type := {
  world : W;
  calls : list call;
  rejections : list value;
  stderr : list (string * value)
}.

Definition M (A : Type) : Type := Run.M State value A.

(** [await client.method(...)]: the call is recorded, the world moves on,
    and a rejection is thrown at the [await]. *)
Definition await {A} (c : call) (settle : W -> completion A * W) : M A :=
  fun st =>
    let (outcome, w) := settle (world st) in
    match outcome with
    | Normal a =>
        (inl a, {| world := w; calls := calls st ++ [c];
                   rejections := rejections st; stderr := stderr st |})
    | Throw e =>
        (inr e, {| world := w; calls := calls st ++ [c];
                   rejections := rejections st ++ [e]; stderr := stderr st |})
    end.

(** [console.error(label, error)]. *)
Definition console_error (label : string) (error : value) : M unit :=
  Run.modify (fun st =>
    {| world := world st; calls := calls st; rejections := rejections st;
       stderr := stderr st ++ [(label, error)] |}).

(** A synchronous expression that may throw. *)
Definition eval {A} (c : completion A) : M A :=
  match c with
  | Normal a => Run.ret a
  | Throw e => Run.abort e
  end.

(** [client.method] on a variable that holds a client or [undefined]. *)
Definition member (client : option DAVClient) (method : string) : M DAVClient :=
  match client with
  | Some c => Run.ret c
  | None => Run.abort (cannot_read "undefined" method)
  end.

(** The [catch (error) { ... }] block every handler ends with; the
    handlers differ in the log label and in the prefix of the message:
<<
      console.error(label, error);
      return { content: [{ type: "text",
                 text: `${prefix}${JSON.stringify(error.message || error)}` }],
               isError: true };
>> *)
Definition caught (label prefix : string) (error : value) : M Envelope :=
  console_error label error ;;
  message <- eval (get error "message") ;;
  Run.ret (failure (prefix ++ template (JSON_stringify (or_else message error)))).

(** [list.find(item => item.url === url)]. *)
Definition find_by_url (url : string) (list : list object) : option object :=
  find (fun item => strict_eq_string (lookup "url" item) url) list.

Definition get_my_calendars (davClient : option DAVClient) : M Envelope :=
  match davClient with
  | None => Run.ret (failure "CalDAV client not initialized for this provider.")
  | Some davClient =>
      Run.try_catch
        (await (Login davClient) (login tsdav davClient) ;;
         calendars <- await (FetchCalendars davClient) (fetchCalendars tsdav davClient) ;;
         Run.ret (success (pretty calendars)))
        (caught "Error in get_my_calendars:" "Error listing calendars: ")
  end.

(** The options of the event fetch: [timeRange] is set when both bounds
    are truthy. *)
Definition fetchOptions (calendar : object)
    (timeRangeStart timeRangeEnd : option string) : FetchOptions :=
  {| calendar := calendar;
     timeRange :=
       if truthy_arg timeRangeStart && truthy_arg timeRangeEnd
       then Some {| range_start := timeRangeStart; range_end := timeRangeEnd |}
       else None |}.

Definition get_calendar_events (davClient : option DAVClient)
    (calendarUrl : string) (timeRangeStart timeRangeEnd : option string)
    : M Envelope :=
  match davClient with
  | None => Run.ret (failure "CalDAV client not initialized for this provider.")
  | Some davClient =>
      Run.try_catch
        (await (Login davClient) (login tsdav davClient) ;;
         calendars <- await (FetchCalendars davClient) (fetchCalendars tsdav davClient) ;;
         match find_by_url calendarUrl calendars with
         | None =>
             Run.ret (failure ("Error: Calendar with URL " ++ calendarUrl ++ " not found."))
         | Some calendar =>
             let fetchOptions := fetchOptions calendar timeRangeStart timeRangeEnd in
             calendarObjects <-
               await (FetchCalendarObjects davClient fetchOptions)
                     (fetchCalendarObjects tsdav davClient fetchOptions) ;;
             Run.ret (success (pretty calendarObjects))
         end)
        (caught "Error in get_calendar_events:" "Error fetching calendar objects: ")
  end.

Definition get_my_contact_lists (cardDavClient : option DAVClient) : M Envelope :=
  match cardDavClient with
  | None => Run.ret (failure "CardDAV client not initialized for this provider.")
  | Some cardDavClient =>
      Run.try_catch
        (await (Login cardDavClient) (login tsdav cardDavClient) ;;
         addressBooks <-
           await (FetchAddressBooks cardDavClient) (fetchAddressBooks tsdav cardDavClient) ;;
         Run.ret (success (pretty addressBooks)))
        (caught "Error in get_my_contact_lists:" "Error listing address books: ")
  end.

Definition get_contacts_from_list (cardDavClient : option DAVClient)
    (addressBookUrl : string) : M Envelope :=
  match cardDavClient with
  | None => Run.ret (failure "CardDAV client not initialized for this provider.")
  | Some cardDavClient =>
      Run.try_catch
        (await (Login cardDavClient) (login tsdav cardDavClient) ;;
         addressBooks <-
           await (FetchAddressBooks cardDavClient) (fetchAddressBooks tsdav cardDavClient) ;;
         match find_by_url addressBookUrl addressBooks with
         | None =>
             Run.ret (failure ("Error: Address book with URL " ++ addressBookUrl
                               ++ " not found."))
         | Some addressBook =>
             vcards <-
               await (FetchVCards cardDavClient addressBook)
                     (fetchVCards tsdav cardDavClient addressBook) ;;
             Run.ret (success (pretty vcards))
         end)
        (caught "Error in get_contacts_from_list:" "Error fetching vCards: ")
  end.

(** The address the file listing is made at:
<<
      let collectionUrl = webDavClient.serverUrl;
      if (path && path !== '/') {
        const base = collectionUrl.endsWith('/') ? collectionUrl.slice(0, -1) : collectionUrl;
        const relativePath = path.startsWith('/') ? path.substring(1) : path;
        collectionUrl = `${base}/${relativePath}`;
      }
>> *)
Definition collectionUrl (serverUrl : string) (path : option string) : string :=
  match path with
  | Some p =>
      if truthy_arg path && negb (p =? "/")
      then
        let base := if endsWith serverUrl "/" then slice_0_minus1 serverUrl else serverUrl in
        let relativePath := if startsWith p "/" then substring_1 p else p in
        base ++ "/" ++ relativePath
      else serverUrl
  | None => serverUrl
  end.

(** The two file handlers have no check of [webDavClient] of their own:
    they are defined inside [if (webDavClient) { ... }]. *)
Definition list_my_files_and_folders (webDavClient : option DAVClient)
    (path : option string) : M Envelope :=
  Run.try_catch
    (client <- member webDavClient "login" ;;
     await (Login client) (login tsdav client) ;;
     let collectionUrl := collectionUrl (serverUrl client) path in
     objects <- await (FetchObjects client collectionUrl)
                      (fetchObjects tsdav client collectionUrl) ;;
     Run.ret (success (pretty objects)))
    (caught "Error in list_my_files_and_folders:" "Error listing WebDAV collection: ").

Definition get_file_or_folder_details (webDavClient : option DAVClient)
    (fileUrl : string) : M Envelope :=
  Run.try_catch
    (client <- member webDavClient "login" ;;
     await (Login client) (login tsdav client) ;;
     objectProperties <- await (FetchObjects client fileUrl)
                               (fetchObjects tsdav client fileUrl) ;;
     Run.ret (success (pretty objectProperties)))
    (caught "Error in get_file_or_folder_details:" "Error getting WebDAV file metadata: ").

End WithCollaborator.

Arguments State W : clear implicits.
Arguments world {W}.
Arguments calls {W}.
Arguments rejections {W}.
Arguments stderr {W}.

End Handlers.

(* ===================================================================== *)
(** * The top-level script *)
(* ===================================================================== *)

Module Startup.
Import JS Tsdav.
Local Open Scope run_scope.

(** [process.env]: each variable is a string or [undefined]. *)
Record Env : Type := {
  env_DAV_PROVIDER : option string;
  env_DAV_USERNAME : option string;
  env_DAV_PASSWORD : option string
}.

(** The tools, in the order the script registers them. *)
Inductive Tool : Type :=
| GetMyCalendars
| GetCalendarEvents
| GetMyContactLists
| GetContactsFromList
| ListMyFilesAndFolders
| GetFileOrFolderDetails.

Definition Tool_eqb (a b : Tool) : bool :=
  match a, b with
  | GetMyCalendars, GetMyCalendars
  | GetCalendarEvents, GetCalendarEvents
  | GetMyContactLists, GetMyContactLists
  | GetContactsFromList, GetContactsFromList
  | ListMyFilesAndFolders, ListMyFilesAndFolders
  | GetFileOrFolderDetails, GetFileOrFolderDetails => true
  | _, _ => false
  end.

(** The name a tool is registered under in [index.js]. *)
Definition tool_name (t : Tool) : string :=
  match t with
  | GetMyCalendars => "get_my_calendars"
  | GetCalendarEvents => "get_calendar_events"
  | GetMyContactLists => "get_my_contact_lists"
  | GetContactsFromList => "get_contacts_from_list"
  | ListMyFilesAndFolders => "list_my_files_and_folders"
  | GetFileOrFolderDetails => "get_file_or_folder_details"
  end.

(** The name a tool is registered under in the second script. *)
Definition qualified_tool_name (DAV_PROVIDER : string) (t : Tool) : string :=
  match t with
  | GetMyCalendars => "get_my_" ++ DAV_PROVIDER ++ "_calendars"
  | GetCalendarEvents => "get_calendar_events_from_" ++ DAV_PROVIDER
  | GetMyContactLists => "get_my_" ++ DAV_PROVIDER ++ "_contact_lists"
  | GetContactsFromList => "get_contacts_from_" ++ DAV_PROVIDER ++ "_list"
  | ListMyFilesAndFolders => "list_my_files_and_folders_from_" ++ DAV_PROVIDER
  | GetFileOrFolderDetails => "get_file_or_folder_details_from_" ++ DAV_PROVIDER
  end.

(** The [zod] schemas of the script: [z.string()] with [.datetime()] and
    [.optional()] or without. *)
Record ZodString : Type := {
  datetime : bool;
  optional : bool
}.

Definition inputSchema (t : Tool) : list (string * ZodString) :=
  match t with
  | GetMyCalendars | GetMyContactLists => []
  | GetCalendarEvents =>
      [ ("calendarUrl", {| datetime := false; optional := false |});
        ("timeRangeStart", {| datetime := true; optional := true |});
        ("timeRangeEnd", {| datetime := true; optional := true |}) ]
  | GetContactsFromList => [ ("addressBookUrl", {| datetime := false; optional := false |}) ]
  | ListMyFilesAndFolders => [ ("path", {| datetime := false; optional := true |}) ]
  | GetFileOrFolderDetails => [ ("fileUrl", {| datetime := false; optional := false |}) ]
  end.

(** [new McpServer({ name, version })] and the tools registered on it so
    far, oldest first.  The script only ever adds to the list. *)
Record McpServer : Type := {
  name : string;
  version : string;
  registeredTools : list Tool
}.

Record Process : Type := {
  stderr : list string;
  server : option McpServer;
  connected : bool
}.

Definition boot : Process :=
  {| stderr := []; server := None; connected := false |}.

(** How the script stops early: [process.exit(code)], or an exception
    nothing catches. *)
Inductive Halt : Type :=
| Exit (code : Z)
| Uncaught (error : value).

Definition Script (A : Type) : Type := Run.M Process Halt A.

Definition console_error (line : string) : Script unit :=
  Run.modify (fun p =>
    {| stderr := stderr p ++ [line]; server := server p; connected := connected p |}).

Definition process_exit {A} (code : Z) : Script A := Run.abort (Exit code).

Definition new_McpServer (name version : string) : Script unit :=
  Run.modify (fun p =>
    {| stderr := stderr p;
       server := Some {| name := name; version := version; registeredTools := [] |};
       connected := connected p |}).

(** [server.tool(name, schema, handler)]. *)
Definition server_tool (t : Tool) : Script unit :=
  Run.modify (fun p =>
    {| stderr := stderr p;
       server :=
         match server p with
         | Some s =>
             Some {| name := name s; version := version s;
                     registeredTools := registeredTools s ++ [t] |}
         | None => None
         end;
       connected := connected p |}).

(** [server.connect(transport)]. *)
Definition server_connect : Script unit :=
  Run.modify (fun p =>
    {| stderr := stderr p; server := server p; connected := true |}).

(** The variables the provider branches assign. *)
Record Globals : Type := {
  calDavServerUrl : option string;
  cardDavServerUrl : option string;
  webDavServerUrl : option string;
  davClient : option DAVClient;
  cardDavClient : option DAVClient;
  webDavClient : option DAVClient
}.

Definition new_DAVClient (serverUrl DAV_USERNAME DAV_PASSWORD accountType : string)
    : DAVClient :=
  {| serverUrl := serverUrl;
     credentials := {| username := DAV_USERNAME; password := DAV_PASSWORD |};
     authMethod := "Basic";
     defaultAccountType := accountType |}.

(** [process.env.NAME || ""]. *)
Definition or_empty (v : option string) : string :=
  match v with
  | Some s => s
  | None => ""
  end.

(** [if (DAV_PROVIDER === "fastmail") {...} else if (DAV_PROVIDER ===
    "icloud") {...} else {...}]. *)
Definition provider_branches (DAV_PROVIDER DAV_USERNAME DAV_PASSWORD : string)
    : Script Globals :=
  if DAV_PROVIDER =? "fastmail" then
    let calDavServerUrl :=
      "https://caldav.fastmail.com/dav/principals/user/" ++ DAV_USERNAME ++ "/" in
    let cardDavServerUrl :=
      "https://carddav.fastmail.com/dav/principals/user/" ++ DAV_USERNAME ++ "/" in
    let webDavServerUrl :=
      "https://webdav.fastmail.com/dav/principals/user/" ++ DAV_USERNAME ++ "/" in
    Run.ret
      {| calDavServerUrl := Some calDavServerUrl;
         cardDavServerUrl := Some cardDavServerUrl;
         webDavServerUrl := Some webDavServerUrl;
         davClient := Some (new_DAVClient calDavServerUrl DAV_USERNAME DAV_PASSWORD "caldav");
         cardDavClient :=
           Some (new_DAVClient cardDavServerUrl DAV_USERNAME DAV_PASSWORD "carddav");
         webDavClient :=
           Some (new_DAVClient webDavServerUrl DAV_USERNAME DAV_PASSWORD "webdav") |}
  else if DAV_PROVIDER =? "icloud" then
    let calDavServerUrl := "https://caldav.icloud.com" in
    let cardDavServerUrl := "https://contacts.icloud.com" in
    Run.ret
      {| calDavServerUrl := Some calDavServerUrl;
         cardDavServerUrl := Some cardDavServerUrl;
         webDavServerUrl := None;
         davClient := Some (new_DAVClient calDavServerUrl DAV_USERNAME DAV_PASSWORD "caldav");
         cardDavClient :=
           Some (new_DAVClient cardDavServerUrl DAV_USERNAME DAV_PASSWORD "carddav");
         webDavClient := None |}
  else
    console_error ("Error: Unsupported DAV_PROVIDER " ++ dquote ++ DAV_PROVIDER ++ dquote
                   ++ ". Use " ++ dquote ++ "fastmail" ++ dquote ++ " or "
                   ++ dquote ++ "icloud" ++ dquote ++ ".") ;;
    process_exit 1.

(** The script, statement by statement. *)
Definition main (env : Env) : Script Globals :=
  DAV_PROVIDER <-
    match env_DAV_PROVIDER env with
    | Some p => Run.ret (toLowerCase p)
    | None => Run.abort (Uncaught (cannot_read "undefined" "toLowerCase"))
    end ;;
  let DAV_USERNAME := or_empty (env_DAV_USERNAME env) in
  let DAV_PASSWORD := or_empty (env_DAV_PASSWORD env) in
  (if negb (truthy (VStr DAV_USERNAME)) || negb (truthy (VStr DAV_PASSWORD))
   then
     console_error
       "Error: DAV_USERNAME and DAV_PASSWORD environment variables are required." ;;
     process_exit 1
   else Run.ret tt) ;;
  new_McpServer ("DAV MCP (" ++ DAV_PROVIDER ++ ")") "0.1.0" ;;
  globals <- provider_branches DAV_PROVIDER DAV_USERNAME DAV_PASSWORD ;;
  server_tool GetMyCalendars ;;
  server_tool GetCalendarEvents ;;
  server_tool GetMyContactLists ;;
  server_tool GetContactsFromList ;;
  match webDavClient globals with
  | Some _ =>
      server_tool ListMyFilesAndFolders ;;
      server_tool GetFileOrFolderDetails
  | None => Run.ret tt
  end ;;
  server_connect ;;
  Run.ret globals.

(** The catalog a started process offers: the registered tools. *)
Definition catalog (p : Process) : list Tool :=
  match server p with
  | Some s => registeredTools s
  | None => []
  end.

(** The status the process ends with when it stops early; Node ends with
    status 1 on an uncaught exception. *)
Definition exit_status (h : Halt) : Z :=
  match h with
  | Exit code => code
  | Uncaught _ => 1
  end.

(** Node reports an uncaught exception on the error channel; the exact
    text (a stack trace) is not modelled beyond the message. *)
Definition uncaught_report (e : value) : string :=
  "Uncaught " ++
  match e with
  | VErr message _ => "Error: " ++ message
  | _ => template (JSON_stringify e)
  end.

(** What the error channel holds when the process stops early. *)
Definition error_channel (h : Halt) (p : Process) : list string :=
  match h with
  | Exit _ => stderr p
  | Uncaught e => stderr p ++ [ uncaught_report e ]
  end.

(** The supported set, as the branches test it. *)
Definition supported (DAV_PROVIDER : option string) : bool :=
  match DAV_PROVIDER with
  | Some p => (toLowerCase p =? "fastmail") || (toLowerCase p =? "icloud")
  | None => false
  end.

(** ** Serving *)

(** A tool call whose arguments passed the tool's schema. *)
Inductive Request : Type :=
| call_get_my_calendars
| call_get_calendar_events (calendarUrl : string) (timeRangeStart timeRangeEnd : option string)
| call_get_my_contact_lists
| call_get_contacts_from_list (addressBookUrl : string)
| call_list_my_files_and_folders (path : option string)
| call_get_file_or_folder_details (fileUrl : string).

Definition tool_of (r : Request) : Tool :=
  match r with
  | call_get_my_calendars => GetMyCalendars
  | call_get_calendar_events _ _ _ => GetCalendarEvents
  | call_get_my_contact_lists => GetMyContactLists
  | call_get_contacts_from_list _ => GetContactsFromList
  | call_list_my_files_and_folders _ => ListMyFilesAndFolders
  | call_get_file_or_folder_details _ => GetFileOrFolderDetails
  end.

Section Serving.

Context {W : Type} (tsdav : Collaborator W).

(** The handler of each tool, closed over the clients of the script. *)
Definition handler (g : Globals) (r : Request) : Handlers.M (W:=W) Handlers.Envelope :=
  match r with
  | call_get_my_calendars =>
      Handlers.get_my_calendars tsdav (davClient g)
  | call_get_calendar_events calendarUrl timeRangeStart timeRangeEnd =>
      Handlers.get_calendar_events tsdav (davClient g) calendarUrl timeRangeStart timeRangeEnd
  | call_get_my_contact_lists =>
      Handlers.get_my_contact_lists tsdav (cardDavClient g)
  | call_get_contacts_from_list addressBookUrl =>
      Handlers.get_contacts_from_list tsdav (cardDavClient g) addressBookUrl
  | call_list_my_files_and_folders path =>
      Handlers.list_my_files_and_folders tsdav (webDavClient g) path
  | call_get_file_or_folder_details fileUrl =>
      Handlers.get_file_or_folder_details tsdav (webDavClient g) fileUrl
  end.

(** One request against a started server: the handler runs when its tool
    is in the catalog; [None] stands for the server's own answer to a
    request for a tool it does not have. *)
Definition call_tool (p : Process) (g : Globals) (r : Request) (st : Handlers.State W)
    : option (Handlers.Envelope + value) * Handlers.State W :=
  if existsb (Tool_eqb (tool_of r)) (catalog p)
  then let (res, st') := handler g r st in (Some res, st')
  else (None, st).

Fixpoint serve_requests (p : Process) (g : Globals) (rs : list Request)
    (st : Handlers.State W)
    : list (option (Handlers.Envelope + value)) * Handlers.State W :=
  match rs with
  | [] => ([], st)
  | r :: rest =>
      let (res, st') := call_tool p g r st in
      let (more, st'') := serve_requests p g rest st' in
      (res :: more, st'')
  end.

(** The process from start to end: requests are served only once the
    script has run through. *)
Definition run (env : Env) (rs : list Request) (st : Handlers.State W)
    : list (option (Handlers.Envelope + value)) * Handlers.State W :=
  match main env boot with
  | (inl g, p) => if connected p then serve_requests p g rs st else ([], st)
  | (inr _, _) => ([], st)
  end.

End Serving.

End Startup.

(* ===================================================================== *)
(** * The words of the specification *)
(* ===================================================================== *)

Module Spec.
Import JS Tsdav Handlers Startup.

(** ** Joining a base address and a relative path *)

(** [b] is [base] with one trailing separator stripped, if it has one. *)
Inductive strip_trailing : string -> string -> Prop :=
| strip_trailing_separator (b : string) : strip_trailing (b ++ "/") b
| strip_trailing_nothing (base : string) :
    endsWith base "/" = false -> strip_trailing base base.

(** [r] is [path] with one leading separator stripped, if it has one. *)
Inductive strip_leading : string -> string -> Prop :=
| strip_leading_separator (r : string) : strip_leading (String "/" r) r
| strip_leading_nothing (path : string) :
    startsWith path "/" = false -> strip_leading path path.

(** [target] is [base] and [path] with one separator stripped from the end
    of the one and from the start of the other, and one separator put
    between the two. *)
Definition stripped_and_joined (base path target : string) : Prop :=
  exists b r, strip_trailing base b /\ strip_leading path r /\ target = b ++ "/" ++ r.

(** [target] joins [base] and [path] with exactly one separator: it is
    made as above, and the separator put between the two is the only one
    there, none being left at the end of the stripped base or at the start
    of the stripped path. *)
Definition joined (base path target : string) : Prop :=
  exists b r,
    strip_trailing base b /\ strip_leading path r
    /\ endsWith b "/" = false /\ startsWith r "/" = false
    /\ target = b ++ "/" ++ r.


(** ** Provider identifiers that differ only in letter case *)

(** Two characters are the same letter in either case, or the same
    character. *)
Definition case_variant (a b : ascii) : Prop :=
  a = b
  \/ (is_upper a = true /\ nat_of_ascii b = nat_of_ascii a + 32)
  \/ (is_upper b = true /\ nat_of_ascii a = nat_of_ascii b + 32).

Inductive differ_only_in_case : string -> string -> Prop :=
| differ_nil : differ_only_in_case "" ""
| differ_cons (a b : ascii) (s t : string) :
    case_variant a b -> differ_only_in_case s t ->
    differ_only_in_case (String a s) (String b t).

(** ** Envelopes *)

(** A well-formed envelope: one text block whose text is a string, and
    [isError] absent or [true]. *)
Definition well_formed (e : Envelope) : Prop :=
  (exists t, content e = [ {| type := "text"; text := Some t |} ])
  /\ (isError e = None \/ isError e = Some true).

(** An error envelope with a non-empty text. *)
Definition reports_error (e : Envelope) : Prop :=
  isError e = Some true
  /\ exists t, content e = [ {| type := "text"; text := Some t |} ] /\ t <> "".

(** The text of the envelope mentions [s]. *)
Definition mentions (e : Envelope) (s : string) : Prop :=
  exists t, content e = [ {| type := "text"; text := Some t |} ] /\ includes t s = true.

(** The client a tool's handler works on. *)
Definition required_client (g : Globals) (t : Tool) : option DAVClient :=
  match t with
  | GetMyCalendars | GetCalendarEvents => davClient g
  | GetMyContactLists | GetContactsFromList => cardDavClient g
  | ListMyFilesAndFolders | GetFileOrFolderDetails => webDavClient g
  end.

Definition calendar_and_contact_tools : list Tool :=
  [GetMyCalendars; GetCalendarEvents; GetMyContactLists; GetContactsFromList].

Definition file_tools : list Tool :=
  [ListMyFilesAndFolders; GetFileOrFolderDetails].


(** Every byte of the string is an ASCII character.  On such a string
    [JS.toLowerCase] is [String.prototype.toLowerCase] exactly. *)
Fixpoint ascii_only (s : string) : bool :=
  match s with
  | EmptyString => true
  | String a rest => (nat_of_ascii a <? 128)%nat && ascii_only rest
  end.


(** A rejection reason on which [error.message] can be read. *)
Definition nullish (v : value) : bool :=
  match v with
  | VUndefined | VNull => true
  | _ => false
  end.

(** ** Reading a run *)

(** The client a call is made on. *)
Definition client_of (c : call) : DAVClient :=
  match c with
  | Login client | FetchCalendars client | FetchCalendarObjects client _
  | FetchAddressBooks client | FetchVCards client _ | FetchObjects client _ => client
  end.

Definition is_login (c : call) : bool :=
  match c with
  | Login _ => true
  | _ => false
  end.

(** The label under which the handler of a tool writes to the log. *)
Definition log_label (t : Tool) : string :=
  match t with
  | GetMyCalendars => "Error in get_my_calendars:"
  | GetCalendarEvents => "Error in get_calendar_events:"
  | GetMyContactLists => "Error in get_my_contact_lists:"
  | GetContactsFromList => "Error in get_contacts_from_list:"
  | ListMyFilesAndFolders => "Error in list_my_files_and_folders:"
  | GetFileOrFolderDetails => "Error in get_file_or_folder_details:"
  end.


(** The two diagnostics of the script. *)
Definition credentials_required : string :=
  "Error: DAV_USERNAME and DAV_PASSWORD environment variables are required.".

Definition unsupported_provider (DAV_PROVIDER : string) : string :=
  "Error: Unsupported DAV_PROVIDER " ++ dquote ++ DAV_PROVIDER ++ dquote
  ++ ". Use " ++ dquote ++ "fastmail" ++ dquote ++ " or "
  ++ dquote ++ "icloud" ++ dquote ++ ".".

End Spec.

(* ===================================================================== *)
(** * Concrete collaborators and inputs *)
(* ===================================================================== *)

Module Sample.
Import JS Tsdav Handlers Startup.

(** A collaborator without state: [login] settles as given, the two
    container listings return the given arrays, and every other fetch
    returns an empty array. *)
Definition scripted (login_settles : completion unit)
    (calendars addressBooks : list object) : Collaborator unit :=
  {| login := fun _ w => (login_settles, w);
     fetchCalendars := fun _ w => (Normal calendars, w);
     fetchCalendarObjects := fun _ _ w => (Normal [], w);
     fetchAddressBooks := fun _ w => (Normal addressBooks, w);
     fetchVCards := fun _ _ w => (Normal [], w);
     fetchObjects := fun _ _ w => (Normal [], w) |}.

(** A collaborator that authenticates, lists two calendars, and rejects
    the listing of the address books. *)
Definition calendars_only : Collaborator unit :=
  {| login := fun _ w => (Normal tt, w);
     fetchCalendars :=
       fun _ w => (Normal [ [("url", VStr "A")]; [("url", VStr "B")] ], w);
     fetchCalendarObjects := fun _ _ w => (Normal [], w);
     fetchAddressBooks := fun _ w => (Throw (VErr "No address books" []), w);
     fetchVCards := fun _ _ w => (Normal [], w);
     fetchObjects := fun _ _ w => (Normal [], w) |}.

Definition fresh : State unit :=
  {| world := tt; calls := []; rejections := []; Handlers.stderr := [] |}.

Definition calendar_client : DAVClient :=
  new_DAVClient "https://caldav.icloud.com" "me@example.com" "app-secret" "caldav".

Definition contact_client : DAVClient :=
  new_DAVClient "https://contacts.icloud.com" "me@example.com" "app-secret" "carddav".


Definition two_calendars : list object :=
  [ [("url", VStr "A")]; [("url", VStr "B")] ].

Definition one_address_book : list object :=
  [ [("url", VStr "/abc/")] ].

Definition icloud_env : Env :=
  {| env_DAV_PROVIDER := Some "ICLOUD";
     env_DAV_USERNAME := Some "me@example.com";
     env_DAV_PASSWORD := Some "app-secret" |}.

(** The variables of a process started for iCloud. *)
Definition icloud_clients (DAV_USERNAME DAV_PASSWORD : string) : Globals :=
  {| calDavServerUrl := Some "https://caldav.icloud.com";
     cardDavServerUrl := Some "https://contacts.icloud.com";
     webDavServerUrl := None;
     davClient := Some (new_DAVClient "https://caldav.icloud.com"
                          DAV_USERNAME DAV_PASSWORD "caldav");
     cardDavClient := Some (new_DAVClient "https://contacts.icloud.com"
                              DAV_USERNAME DAV_PASSWORD "carddav");
     webDavClient := None |}.


(** The variables of a process started for Fastmail. *)
Definition fastmail_clients (DAV_USERNAME DAV_PASSWORD : string) : Globals :=
  let url host := "https://" ++ host ++ ".fastmail.com/dav/principals/user/"
                  ++ DAV_USERNAME ++ "/" in
  {| calDavServerUrl := Some (url "caldav");
     cardDavServerUrl := Some (url "carddav");
     webDavServerUrl := Some (url "webdav");
     davClient := Some (new_DAVClient (url "caldav") DAV_USERNAME DAV_PASSWORD "caldav");
     cardDavClient := Some (new_DAVClient (url "carddav") DAV_USERNAME DAV_PASSWORD "carddav");
     webDavClient := Some (new_DAVClient (url "webdav") DAV_USERNAME DAV_PASSWORD "webdav") |}.

End Sample.

(* ===================================================================== *)
(** * Properties *)
(* ===================================================================== *)

Import JS Tsdav Handlers Startup Spec.

(** ** Strings *)

Lemma endsWith_app_separator (b : string) : endsWith (b ++ "/") "/" = true.
Proof.
  induction b as [|a b IH]; [reflexivity|].
  simpl. destruct (b ++ "/") eqn:E; [destruct b; discriminate|exact IH].
Qed.

Lemma slice_app_separator (b : string) : slice_0_minus1 (b ++ "/") = b.
Proof.
  induction b as [|a b IH]; [reflexivity|].
  simpl. destruct (b ++ "/") eqn:E; [destruct b; discriminate|].
  now rewrite IH.
Qed.

Lemma endsWith_slice (s : string) :
  endsWith s "/" = true -> s = slice_0_minus1 s ++ "/".
Proof.
  induction s as [|a s IH]; [discriminate|].
  simpl. destruct s as [|a' s'].
  - intros H. apply Ascii.eqb_eq in H. now subst.
  - intros H. simpl. f_equal. exact (IH H).
Qed.

Lemma startsWith_substring (p : string) :
  startsWith p "/" = true -> p = String "/" (substring_1 p).
Proof.
  destruct p as [|a p]; [discriminate|].
  simpl. intros H. apply Ascii.eqb_eq in H. now subst.
Qed.

Lemma strip_trailing_functional (base b1 b2 : string) :
  strip_trailing base b1 -> strip_trailing base b2 -> b1 = b2.
Proof.
  intros H1 H2. inversion H1 as [c1 E1|c1 N1 E1]; inversion H2 as [c2 E2|c2 N2 E2]; subst.
  - rewrite <- (slice_app_separator b1), <- (slice_app_separator b2). now rewrite E2.
  - rewrite endsWith_app_separator in N2. discriminate.
  - rewrite endsWith_app_separator in N1. discriminate.
  - reflexivity.
Qed.

Lemma strip_leading_functional (path r1 r2 : string) :
  strip_leading path r1 -> strip_leading path r2 -> r1 = r2.
Proof.
  intros H1 H2. inversion H1 as [c1 E1|c1 N1 E1]; inversion H2 as [c2 E2|c2 N2 E2]; subst;
    try congruence; simpl in *; try discriminate.
Qed.

Lemma stripped_and_joined_functional (base path t1 t2 : string) :
  stripped_and_joined base path t1 -> stripped_and_joined base path t2 -> t1 = t2.
Proof.
  intros (b1 & r1 & B1 & R1 & ->) (b2 & r2 & B2 & R2 & ->).
  now rewrite (strip_trailing_functional _ _ _ B1 B2), (strip_leading_functional _ _ _ R1 R2).
Qed.

Lemma joined_stripped_and_joined (base path target : string) :
  joined base path target -> stripped_and_joined base path target.
Proof. intros (b & r & B & R & _ & _ & E). now exists b, r. Qed.




(** The join the handler computes for a path that is neither empty nor the
    lone separator is the join of the specification. *)
Lemma collectionUrl_stripped_and_joined (base p : string) :
  p <> "" -> p <> "/" -> stripped_and_joined base p (collectionUrl base (Some p)).
Proof.
  intros Hne Hsep. unfold collectionUrl, truthy_arg.
  apply String.eqb_neq in Hne, Hsep. rewrite Hne, Hsep. simpl.
  exists (if endsWith base "/" then slice_0_minus1 base else base),
         (if startsWith p "/" then substring_1 p else p).
  repeat split.
  - destruct (endsWith base "/") eqn:E.
    + rewrite (endsWith_slice _ E) at 1. constructor.
    + now constructor.
  - destruct (startsWith p "/") eqn:E.
    + rewrite (startsWith_substring _ E) at 1. constructor.
    + now constructor.
Qed.


Lemma collectionUrl_guard (base : string) :
  collectionUrl base None = base
  /\ collectionUrl base (Some "") = base
  /\ collectionUrl base (Some "/") = base.
Proof. repeat split. Qed.

(** ** The catch block *)

Ltac run_handler :=
  cbv beta iota zeta delta
    [get_my_calendars get_calendar_events get_my_contact_lists
     get_contacts_from_list list_my_files_and_folders get_file_or_folder_details
     Run.try_catch Run.bind Run.ret Run.abort Run.modify await member];
  cbn [fst snd world calls rejections Handlers.stderr].

Section CatchBlock.

Context {W : Type}.
Implicit Types (st : State W) (error : value) (label prefix : string).

(** The catch block makes no call: it only writes to the log. *)
Lemma caught_state label prefix error st :
  snd (caught label prefix error st) =
    {| world := world st; calls := calls st; rejections := rejections st;
       Handlers.stderr := Handlers.stderr st ++ [(label, error)] |}.
Proof.
  unfold caught, console_error, eval, Run.bind, Run.modify, Run.ret, Run.abort.
  destruct error; reflexivity.
Qed.

(** On a reason other than [undefined] and [null] it returns an error
    envelope whose text starts with the handler's prefix. *)
Lemma caught_returns label prefix error st :
  nullish error = false ->
  exists t, fst (caught label prefix error st) = inl (failure (prefix ++ t)).
Proof.
  intros H. unfold caught, console_error, eval, Run.bind, Run.modify, Run.ret, Run.abort.
  destruct error; try discriminate; cbn; eauto.
Qed.

(** On [undefined] and [null] the read of [error.message] throws, and the
    catch block is left by that exception. *)
Lemma caught_throws label prefix error st :
  nullish error = true ->
  exists e, fst (caught label prefix error st) = inr e.
Proof.
  intros H. unfold caught, console_error, eval, Run.bind, Run.modify, Run.ret, Run.abort.
  destruct error; try discriminate; cbn; eauto.
Qed.

End CatchBlock.

(** ** The address of the file listing *)

(** C10.  The path [/] is treated like an absent path: the handler behaves
    as it does without a path, and the address it fetches at is the base
    address unchanged.  That is not the join with an empty segment, which
    for a base without a trailing separator would end in a separator. *)
Theorem lone_separator_is_absent_path :
  forall (W : Type) (tsdav : Collaborator W) (webDavClient : option DAVClient)
         (st : State W) (base : string),
    list_my_files_and_folders tsdav webDavClient (Some "/") st
    = list_my_files_and_folders tsdav webDavClient None st
    /\ collectionUrl base (Some "/") = base
    /\ collectionUrl base (Some "/") = collectionUrl base None
    /\ (if endsWith base "/" then True
        else joined base "/" (base ++ "/") /\ collectionUrl base (Some "/") <> base ++ "/").
Proof.
  intros W tsdav webDavClient st base. repeat split.
  destruct (endsWith base "/") eqn:E; [exact I|]. split.
  - exists base, "". split; [now apply strip_trailing_nothing|].
    split; [apply strip_leading_separator|]. split; [exact E|]. split; reflexivity.
  - cbn. intros H. apply (f_equal (fun s => endsWith s "/")) in H.
    rewrite endsWith_app_separator in H. congruence.
Qed.

(** ** Matching a container by its URL *)

Lemma strict_eq_string_iff (v : value) (s : string) :
  strict_eq_string v s = true <-> v = VStr s.
Proof.
  destruct v; cbn; try (split; [discriminate|intros H; discriminate H]).
  rewrite String.eqb_eq. split; [now intros ->|now intros [= ->]].
Qed.

(** [find] returns the first container whose [url] is the supplied string
    itself. *)
Lemma find_by_url_some (url : string) (containers : list object) (c : object) :
  find_by_url url containers = Some c -> In c containers /\ lookup "url" c = VStr url.
Proof.
  unfold find_by_url. intros H. apply find_some in H as [Hin Heq].
  split; [exact Hin|now apply strict_eq_string_iff].
Qed.

Lemma find_by_url_none (url : string) (containers : list object) :
  find_by_url url containers = None
  <-> forall c, In c containers -> lookup "url" c <> VStr url.
Proof.
  unfold find_by_url. split.
  - intros H c Hin Heq. pose proof (find_none _ _ H c Hin) as Hc. cbn in Hc.
    apply strict_eq_string_iff in Heq. congruence.
  - intros H. induction containers as [|c rest IH]; [reflexivity|].
    cbn. destruct (strict_eq_string (lookup "url" c) url) eqn:E.
    + apply strict_eq_string_iff in E. exfalso. apply (H c); [now left|exact E].
    + apply IH. intros c' Hin. apply H. now right.
Qed.

Lemma prefix_app (s t : string) : String.prefix s (s ++ t) = true.
Proof.
  induction s as [|a s IH]; cbn; [now destruct t|].
  destruct (ascii_dec a a) as [_|N]; [exact IH|now elim N].
Qed.

Lemma includes_app (before s after : string) :
  includes (before ++ s ++ after) s = true.
Proof.
  induction before as [|a before IH].
  - change ("" ++ s ++ after) with (s ++ after).
    pose proof (prefix_app s after) as P.
    destruct (s ++ after); cbn [includes]; now rewrite P.
  - change (String a before ++ s ++ after) with (String a (before ++ s ++ after)).
    cbn [includes]. rewrite IH. apply orb_true_r.
Qed.

Lemma find_by_url_first (url : string) (before after : list object) (c : object) :
  lookup "url" c = VStr url ->
  (forall b, In b before -> lookup "url" b <> VStr url) ->
  find_by_url url (before ++ c :: after) = Some c.
Proof.
  intros Hc Hbefore. unfold find_by_url.
  induction before as [|b before IH]; cbn.
  - apply strict_eq_string_iff in Hc. now rewrite Hc.
  - destruct (strict_eq_string (lookup "url" b) url) eqn:E.
    + apply strict_eq_string_iff in E. exfalso. apply (Hbefore b); [now left|exact E].
    + apply IH. intros b' Hin. apply Hbefore. now right.
Qed.

(** C3.  The supplied URL is compared with the [url] of each freshly
    fetched container by equality of strings, nothing normalised.  For the
    handler of list-calendar-events, once the authentication and the listing
    of the calendars are fulfilled: when no calendar's [url] is equal to
    the supplied URL, the handler returns the error envelope whose text
    names that URL, and the calls it has made are the authentication and the
    listing, no event fetch; when a calendar's [url] is the supplied string
    itself, the first such calendar is matched and the events are fetched
    from it.  The same holds of the handler of list-contacts, with the
    address books and the vCard fetch. *)
Theorem unmatched_url_is_not_found :
  forall (W : Type) (tsdav : Collaborator W),
    (forall (davClient : DAVClient) (calendarUrl : string)
            (timeRangeStart timeRangeEnd : option string)
            (calendars : list object) (st : State W) (w1 w2 : W),
        login tsdav davClient (world st) = (Normal tt, w1) ->
        fetchCalendars tsdav davClient w1 = (Normal calendars, w2) ->
        ((forall c, In c calendars -> lookup "url" c <> VStr calendarUrl) ->
         get_calendar_events tsdav (Some davClient) calendarUrl
           timeRangeStart timeRangeEnd st
         = (inl (failure ("Error: Calendar with URL " ++ calendarUrl ++ " not found.")),
            {| world := w2;
               calls := calls st ++ [Login davClient; FetchCalendars davClient];
               rejections := rejections st;
               Handlers.stderr := Handlers.stderr st |})
         /\ mentions (failure ("Error: Calendar with URL " ++ calendarUrl ++ " not found."))
              calendarUrl)
        /\ (forall before calendar after,
               calendars = (before ++ calendar :: after)%list ->
               lookup "url" calendar = VStr calendarUrl ->
               (forall b, In b before -> lookup "url" b <> VStr calendarUrl) ->
               calls (snd (get_calendar_events tsdav (Some davClient) calendarUrl
                             timeRangeStart timeRangeEnd st))
               = (calls st
                  ++ [Login davClient; FetchCalendars davClient;
                      FetchCalendarObjects davClient
                        (fetchOptions calendar timeRangeStart timeRangeEnd)])%list))
    /\ (forall (cardDavClient : DAVClient) (addressBookUrl : string)
               (addressBooks : list object) (st : State W) (w1 w2 : W),
          login tsdav cardDavClient (world st) = (Normal tt, w1) ->
          fetchAddressBooks tsdav cardDavClient w1 = (Normal addressBooks, w2) ->
          ((forall c, In c addressBooks -> lookup "url" c <> VStr addressBookUrl) ->
           get_contacts_from_list tsdav (Some cardDavClient) addressBookUrl st
           = (inl (failure ("Error: Address book with URL " ++ addressBookUrl
                            ++ " not found.")),
              {| world := w2;
                 calls := calls st
                          ++ [Login cardDavClient; FetchAddressBooks cardDavClient];
                 rejections := rejections st;
                 Handlers.stderr := Handlers.stderr st |})
           /\ mentions (failure ("Error: Address book with URL " ++ addressBookUrl
                                 ++ " not found."))
                addressBookUrl)
          /\ (forall before addressBook after,
                 addressBooks = (before ++ addressBook :: after)%list ->
                 lookup "url" addressBook = VStr addressBookUrl ->
                 (forall b, In b before -> lookup "url" b <> VStr addressBookUrl) ->
                 calls (snd (get_contacts_from_list tsdav (Some cardDavClient)
                               addressBookUrl st))
                 = (calls st
                    ++ [Login cardDavClient; FetchAddressBooks cardDavClient;
                        FetchVCards cardDavClient addressBook])%list)).
Proof.
  intros W tsdav. split.
  - intros davClient calendarUrl timeRangeStart timeRangeEnd calendars st w1 w2
           Hlogin Hfetch.
    split.
    + intros Hnone. apply find_by_url_none in Hnone. split.
      * run_handler. rewrite Hlogin. cbn [world calls rejections Handlers.stderr].
        rewrite Hfetch, Hnone. cbn [world calls rejections Handlers.stderr].
        now rewrite <- app_assoc.
      * eexists. split; [reflexivity|]. apply includes_app.
    + intros before calendar after -> Hurl Hbefore.
      pose proof (find_by_url_first _ before after _ Hurl Hbefore) as Hfind.
      run_handler. rewrite Hlogin. cbn [world calls rejections Handlers.stderr].
      rewrite Hfetch, Hfind. cbn [world calls rejections Handlers.stderr].
      destruct (fetchCalendarObjects tsdav davClient _ w2) as [[events|e] w3];
        rewrite ?caught_state; cbn [snd calls]; now rewrite <- !app_assoc.
  - intros cardDavClient addressBookUrl addressBooks st w1 w2 Hlogin Hfetch.
    split.
    + intros Hnone. apply find_by_url_none in Hnone. split.
      * run_handler. rewrite Hlogin. cbn [world calls rejections Handlers.stderr].
        rewrite Hfetch, Hnone. cbn [world calls rejections Handlers.stderr].
        now rewrite <- app_assoc.
      * eexists. split; [reflexivity|]. apply includes_app.
    + intros before addressBook after -> Hurl Hbefore.
      pose proof (find_by_url_first _ before after _ Hurl Hbefore) as Hfind.
      run_handler. rewrite Hlogin. cbn [world calls rejections Handlers.stderr].
      rewrite Hfetch, Hfind. cbn [world calls rejections Handlers.stderr].
      destruct (fetchVCards tsdav cardDavClient _ w2) as [[vcards|e] w3];
        rewrite ?caught_state; cbn [snd calls]; now rewrite <- !app_assoc.
Qed.

(** At a collaborator that lists the calendars [A] and [B] and rejects the
    listing of the address books: [C] is not found, [b] (which differs from
    [B] in case only) and [A/] (in a trailing separator only) are not found
    either, and [B] is matched. *)
Lemma unmatched_url_is_not_found_witness :
  fst (get_calendar_events Sample.calendars_only (Some Sample.calendar_client)
         "C" None None Sample.fresh)
  = inl (failure "Error: Calendar with URL C not found.")
  /\ calls (snd (get_calendar_events Sample.calendars_only (Some Sample.calendar_client)
                   "C" None None Sample.fresh))
     = [Login Sample.calendar_client; FetchCalendars Sample.calendar_client]
  /\ fst (get_calendar_events Sample.calendars_only (Some Sample.calendar_client)
            "b" None None Sample.fresh)
     = inl (failure "Error: Calendar with URL b not found.")
  /\ fst (get_calendar_events Sample.calendars_only (Some Sample.calendar_client)
            "A/" None None Sample.fresh)
     = inl (failure "Error: Calendar with URL A/ not found.")
  /\ calls (snd (get_calendar_events Sample.calendars_only (Some Sample.calendar_client)
                   "B" None None Sample.fresh))
     = [Login Sample.calendar_client; FetchCalendars Sample.calendar_client;
        FetchCalendarObjects Sample.calendar_client
          {| calendar := [("url", VStr "B")]; timeRange := None |}]
  /\ get_contacts_from_list (Sample.scripted (Normal tt) [] Sample.one_address_book)
       (Some Sample.contact_client) "/abc" Sample.fresh
     = (inl (failure "Error: Address book with URL /abc not found."),
        {| world := tt;
           calls := [Login Sample.contact_client; FetchAddressBooks Sample.contact_client];
           rejections := [];
           Handlers.stderr := [] |})
  /\ calls (snd (get_contacts_from_list
                   (Sample.scripted (Normal tt) [] Sample.one_address_book)
                   (Some Sample.contact_client) "/abc/" Sample.fresh))
     = [Login Sample.contact_client; FetchAddressBooks Sample.contact_client;
        FetchVCards Sample.contact_client [("url", VStr "/abc/")]].
Proof.
  pose proof (proj2 (unmatched_url_is_not_found unit
                       (Sample.scripted (Normal tt) [] Sample.one_address_book))) as H'.
  pose proof (proj1 (unmatched_url_is_not_found unit Sample.calendars_only)) as H.
  assert (Hmiss : forall url, url <> "A" -> url <> "B" ->
            forall c, In c Sample.two_calendars -> lookup "url" c <> VStr url).
  { intros url HA HB c [<-|[<-|[]]]; cbn; congruence. }
  split; [|split; [|split; [|split; [|split; [|split]]]]].
  - exact (f_equal fst
             (proj1 (proj1 (H Sample.calendar_client "C" None None Sample.two_calendars
                              Sample.fresh tt tt eq_refl eq_refl)
                       (Hmiss "C" ltac:(discriminate) ltac:(discriminate))))).
  - exact (f_equal (fun run => calls (snd run))
             (proj1 (proj1 (H Sample.calendar_client "C" None None Sample.two_calendars
                              Sample.fresh tt tt eq_refl eq_refl)
                       (Hmiss "C" ltac:(discriminate) ltac:(discriminate))))).
  - exact (f_equal fst
             (proj1 (proj1 (H Sample.calendar_client "b" None None Sample.two_calendars
                              Sample.fresh tt tt eq_refl eq_refl)
                       (Hmiss "b" ltac:(discriminate) ltac:(discriminate))))).
  - exact (f_equal fst
             (proj1 (proj1 (H Sample.calendar_client "A/" None None Sample.two_calendars
                              Sample.fresh tt tt eq_refl eq_refl)
                       (Hmiss "A/" ltac:(discriminate) ltac:(discriminate))))).
  - refine (proj2 (H Sample.calendar_client "B" None None Sample.two_calendars
                     Sample.fresh tt tt eq_refl eq_refl)
              [ [("url", VStr "A")] ] [("url", VStr "B")] [] eq_refl eq_refl _).
    intros b [<-|[]]. cbn. discriminate.
  - refine (proj1 (proj1 (H' Sample.contact_client "/abc" Sample.one_address_book
                            Sample.fresh tt tt eq_refl eq_refl) _)).
    intros c [<-|[]]. cbn. discriminate.
  - refine (proj2 (H' Sample.contact_client "/abc/" Sample.one_address_book
                     Sample.fresh tt tt eq_refl eq_refl)
              [] [("url", VStr "/abc/")] [] eq_refl eq_refl _).
    intros b [].
Defined.

(** ** The time range of the event fetch *)

(** With bounds that are not the empty string, [timeRange] is set exactly
    when both bounds are supplied, and then holds the two bounds as they
    were received. *)
Lemma fetchOptions_timeRange (calendar : object) (timeRangeStart timeRangeEnd : option string) :
  timeRangeStart <> Some "" -> timeRangeEnd <> Some "" ->
  timeRange (fetchOptions calendar timeRangeStart timeRangeEnd)
  = match timeRangeStart, timeRangeEnd with
    | Some s, Some e => Some {| range_start := Some s; range_end := Some e |}
    | _, _ => None
    end.
Proof.
  intros Hs He. unfold fetchOptions, truthy_arg. cbn [timeRange].
  destruct timeRangeStart as [s|], timeRangeEnd as [e|]; cbn; try reflexivity.
  - destruct (String.eqb_spec s ""); [now subst|].
    destruct (String.eqb_spec e ""); [now subst|]. reflexivity.
  - now destruct (s =? "").
Qed.

(** The options of the event fetch when one bound is missing are those of
    a fetch with no bound. *)
Lemma fetchOptions_one_bound (calendar : object) (bound : string) :
  fetchOptions calendar (Some bound) None = fetchOptions calendar None None
  /\ fetchOptions calendar None (Some bound) = fetchOptions calendar None None.
Proof.
  unfold fetchOptions, truthy_arg. split; [|reflexivity].
  now rewrite andb_false_r.
Qed.

(** The calls a run of [get_calendar_events] makes: the authentication,
    then the listing, then at most one event fetch, whose options are
    [fetchOptions] of a listed calendar and the two bounds. *)
Lemma get_calendar_events_calls {W : Type} (tsdav : Collaborator W)
    (davClient : option DAVClient) (calendarUrl : string)
    (timeRangeStart timeRangeEnd : option string) (st : State W) :
  exists made,
    calls (snd (get_calendar_events tsdav davClient calendarUrl
                  timeRangeStart timeRangeEnd st))
    = (calls st ++ made)%list
    /\ forall client options,
         In (FetchCalendarObjects client options) made ->
         exists calendar, options = fetchOptions calendar timeRangeStart timeRangeEnd.
Proof.
  destruct davClient as [c|].
  2:{ exists []. cbn. rewrite app_nil_r. split; [reflexivity|intros ? ? []]. }
  run_handler.
  destruct (login tsdav c (world st)) as [[[]|e] w1]; cbn [world calls rejections Handlers.stderr].
  2:{ rewrite caught_state. cbn. exists [Login c]. split; [reflexivity|].
      intros ? ? [H|[]]; discriminate H. }
  destruct (fetchCalendars tsdav c w1) as [[calendars|e] w2];
    cbn [world calls rejections Handlers.stderr].
  2:{ rewrite caught_state. cbn. exists [Login c; FetchCalendars c].
      split; [now rewrite <- app_assoc|].
      intros ? ? [H|[H|[]]]; discriminate H. }
  destruct (find_by_url calendarUrl calendars) as [calendar|].
  2:{ cbn. exists [Login c; FetchCalendars c].
      split; [now rewrite <- app_assoc|].
      intros ? ? [H|[H|[]]]; discriminate H. }
  exists [Login c; FetchCalendars c;
          FetchCalendarObjects c (fetchOptions calendar timeRangeStart timeRangeEnd)].
  cbn [world calls rejections Handlers.stderr].
  split.
  - destruct (fetchCalendarObjects tsdav c _ w2) as [[events|e] w3];
      cbn [world calls rejections Handlers.stderr].
    + cbn. now rewrite <- !app_assoc.
    + rewrite caught_state. cbn. now rewrite <- !app_assoc.
  - intros client options [H|[H|[H|[]]]]; try discriminate H.
    injection H as _ <-. now exists calendar.
Qed.

(** C2.  Given bounds the schema admits (an empty string is no datetime):
    once the authentication and the listing are fulfilled and the calendar
    is found, the list-calendar-events handler makes exactly one event fetch,
    on that calendar, and the fetch carries a time range if and only if both
    [timeRangeStart] and [timeRangeEnd] were supplied; the range then holds
    both bounds as received.  In no run does an event fetch carry anything
    else: no range with a single bound reaches the collaborator.  A run with
    exactly one bound is the run with neither: same calls, same result. *)
Theorem time_range_iff_both_bounds :
  forall (W : Type) (tsdav : Collaborator W) (davClient : option DAVClient)
         (calendarUrl : string) (timeRangeStart timeRangeEnd : option string)
         (st : State W),
    timeRangeStart <> Some "" -> timeRangeEnd <> Some "" ->
    (forall client w1 calendars w2 calendar,
        davClient = Some client ->
        login tsdav client (world st) = (Normal tt, w1) ->
        fetchCalendars tsdav client w1 = (Normal calendars, w2) ->
        find_by_url calendarUrl calendars = Some calendar ->
        calls (snd (get_calendar_events tsdav davClient calendarUrl
                      timeRangeStart timeRangeEnd st))
        = (calls st
           ++ [Login client; FetchCalendars client;
               FetchCalendarObjects client
                 {| calendar := calendar;
                    timeRange :=
                      match timeRangeStart, timeRangeEnd with
                      | Some s, Some e =>
                          Some {| range_start := Some s; range_end := Some e |}
                      | _, _ => None
                      end |}])%list)
    /\ (exists made,
        calls (snd (get_calendar_events tsdav davClient calendarUrl
                      timeRangeStart timeRangeEnd st))
        = (calls st ++ made)%list
        /\ forall client options,
             In (FetchCalendarObjects client options) made ->
             timeRange options
             = match timeRangeStart, timeRangeEnd with
               | Some s, Some e => Some {| range_start := Some s; range_end := Some e |}
               | _, _ => None
               end)
    /\ (match timeRangeStart, timeRangeEnd with
        | Some _, Some _ => True
        | _, _ =>
            get_calendar_events tsdav davClient calendarUrl timeRangeStart timeRangeEnd st
            = get_calendar_events tsdav davClient calendarUrl None None st
        end).
Proof.
  intros W tsdav davClient calendarUrl timeRangeStart timeRangeEnd st Hs He.
  split; [|split].
  - intros client w1 calendars w2 calendar -> Hlogin Hfetch Hfind.
    assert (Hopts : fetchOptions calendar timeRangeStart timeRangeEnd
                    = {| calendar := calendar;
                         timeRange :=
                           match timeRangeStart, timeRangeEnd with
                           | Some s, Some e =>
                               Some {| range_start := Some s; range_end := Some e |}
                           | _, _ => None
                           end |}).
    { rewrite <- (fetchOptions_timeRange calendar _ _ Hs He). reflexivity. }
    run_handler. rewrite Hlogin. cbn [world calls rejections Handlers.stderr].
    rewrite Hfetch, Hfind. cbn [world calls rejections Handlers.stderr].
    rewrite Hopts.
    destruct (fetchCalendarObjects tsdav client _ w2) as [[events|e] w3];
      rewrite ?caught_state; cbn [snd calls]; now rewrite <- !app_assoc.
  - destruct (get_calendar_events_calls tsdav davClient calendarUrl
                timeRangeStart timeRangeEnd st) as (made & Hcalls & Hopts).
    exists made. split; [exact Hcalls|].
    intros client options Hin. destruct (Hopts client options Hin) as (calendar & ->).
    now apply fetchOptions_timeRange.
  - destruct timeRangeStart as [s|], timeRangeEnd as [e|]; try exact I; try reflexivity;
      (destruct davClient as [c|]; [|reflexivity]);
      run_handler;
      (destruct (login tsdav c (world st)) as [[[]|err] w1]; [|reflexivity]);
      cbn [world calls rejections Handlers.stderr];
      (destruct (fetchCalendars tsdav c w1) as [[calendars|err] w2]; [|reflexivity]);
      (destruct (find_by_url calendarUrl calendars) as [calendar|]; [|reflexivity]).
    now rewrite (proj1 (fetchOptions_one_bound calendar s)).
Qed.

(** With one bound the event fetch is made without a range, with both it
    is made with the two. *)
Lemma time_range_iff_both_bounds_witness :
  calls (snd (get_calendar_events (Sample.scripted (Normal tt) Sample.two_calendars [])
                (Some Sample.calendar_client) "A"
                (Some "2024-06-01T00:00:00Z") None Sample.fresh))
  = [Login Sample.calendar_client; FetchCalendars Sample.calendar_client;
     FetchCalendarObjects Sample.calendar_client
       {| calendar := [("url", VStr "A")]; timeRange := None |}]
  /\ get_calendar_events (Sample.scripted (Normal tt) Sample.two_calendars [])
       (Some Sample.calendar_client) "A" (Some "2024-06-01T00:00:00Z") None Sample.fresh
     = get_calendar_events (Sample.scripted (Normal tt) Sample.two_calendars [])
         (Some Sample.calendar_client) "A" None None Sample.fresh
  /\ calls (snd (get_calendar_events (Sample.scripted (Normal tt) Sample.two_calendars [])
                   (Some Sample.calendar_client) "A"
                   (Some "2024-06-01T00:00:00Z") (Some "2024-06-30T00:00:00Z")
                   Sample.fresh))
     = [Login Sample.calendar_client; FetchCalendars Sample.calendar_client;
        FetchCalendarObjects Sample.calendar_client
          {| calendar := [("url", VStr "A")];
             timeRange := Some {| range_start := Some "2024-06-01T00:00:00Z";
                                  range_end := Some "2024-06-30T00:00:00Z" |} |}].
Proof.
  assert (H1 : Some "2024-06-01T00:00:00Z" <> Some "") by discriminate.
  assert (H2 : Some "2024-06-30T00:00:00Z" <> Some "") by discriminate.
  assert (H3 : @None string <> Some "") by discriminate.
  pose proof (time_range_iff_both_bounds unit
                (Sample.scripted (Normal tt) Sample.two_calendars [])
                (Some Sample.calendar_client) "A" (Some "2024-06-01T00:00:00Z") None
                Sample.fresh H1 H3) as (Hone & _ & Hsame).
  pose proof (time_range_iff_both_bounds unit
                (Sample.scripted (Normal tt) Sample.two_calendars [])
                (Some Sample.calendar_client) "A" (Some "2024-06-01T00:00:00Z")
                (Some "2024-06-30T00:00:00Z")
                Sample.fresh H1 H2) as (Hboth & _ & _).
  split; [|split].
  - exact (Hone Sample.calendar_client tt Sample.two_calendars tt [("url", VStr "A")]
             eq_refl eq_refl eq_refl eq_refl).
  - exact Hsame.
  - exact (Hboth Sample.calendar_client tt Sample.two_calendars tt [("url", VStr "A")]
             eq_refl eq_refl eq_refl eq_refl).
Defined.

(** C9.  When both bounds are supplied and the calendar is found, the
    event fetch is made with exactly the two bounds received, whatever their
    order: nothing compares the start with the end, and the result of the
    handler is what the collaborator makes of that range. *)
Theorem time_range_forwarded_unvalidated :
  forall (W : Type) (tsdav : Collaborator W) (davClient : DAVClient)
         (calendarUrl timeRangeStart timeRangeEnd : string)
         (st : State W) (w1 w2 : W) (calendars : list object) (calendar : object),
    timeRangeStart <> "" -> timeRangeEnd <> "" ->
    login tsdav davClient (world st) = (Normal tt, w1) ->
    fetchCalendars tsdav davClient w1 = (Normal calendars, w2) ->
    find_by_url calendarUrl calendars = Some calendar ->
    let options :=
      {| calendar := calendar;
         timeRange := Some {| range_start := Some timeRangeStart;
                              range_end := Some timeRangeEnd |} |} in
    let run := get_calendar_events tsdav (Some davClient) calendarUrl
                 (Some timeRangeStart) (Some timeRangeEnd) st in
    calls (snd run)
    = (calls st ++ [Login davClient; FetchCalendars davClient;
                    FetchCalendarObjects davClient options])%list
    /\ match fst (fetchCalendarObjects tsdav davClient options w2) with
       | Normal events => fst run = inl (success (pretty events))
       | Throw _ => rejections (snd run) <> rejections st
       end.
Proof.
  intros W tsdav davClient calendarUrl timeRangeStart timeRangeEnd st w1 w2
         calendars calendar Hs He Hlogin Hfetch Hfind options run.
  assert (Hopts : fetchOptions calendar (Some timeRangeStart) (Some timeRangeEnd) = options).
  { unfold fetchOptions, truthy_arg.
    apply String.eqb_neq in Hs, He. now rewrite Hs, He. }
  subst run. run_handler. rewrite Hlogin. cbn [world calls rejections Handlers.stderr].
  rewrite Hfetch, Hfind. cbn [world calls rejections Handlers.stderr].
  rewrite Hopts.
  destruct (fetchCalendarObjects tsdav davClient options w2) as [[events|e] w3];
    cbn [fst]; cbn [world calls rejections Handlers.stderr].
  - cbn. split; [now rewrite <- !app_assoc|reflexivity].
  - rewrite caught_state. cbn. split; [now rewrite <- !app_assoc|].
    intros H. apply (f_equal (@List.length value)) in H.
    rewrite length_app in H. cbn in H. lia.
Qed.

Lemma time_range_forwarded_unvalidated_witness :
  calls (snd (get_calendar_events (Sample.scripted (Normal tt) Sample.two_calendars [])
                (Some Sample.calendar_client) "B"
                (Some "2024-06-02T00:00:00Z") (Some "2024-06-01T00:00:00Z")
                Sample.fresh))
  = [Login Sample.calendar_client; FetchCalendars Sample.calendar_client;
     FetchCalendarObjects Sample.calendar_client
       {| calendar := [("url", VStr "B")];
          timeRange := Some {| range_start := Some "2024-06-02T00:00:00Z";
                               range_end := Some "2024-06-01T00:00:00Z" |} |}].
Proof.
  refine (proj1 (time_range_forwarded_unvalidated unit
                   (Sample.scripted (Normal tt) Sample.two_calendars [])
                   Sample.calendar_client "B"
                   "2024-06-02T00:00:00Z" "2024-06-01T00:00:00Z"
                   Sample.fresh tt tt Sample.two_calendars [("url", VStr "B")]
                   _ _ eq_refl eq_refl eq_refl)); discriminate.
Defined.

(** ** The handler boundary *)

Lemma pretty_defined (records : list object) : exists t, pretty records = Some t.
Proof. unfold pretty, JSON_stringify_2. cbn. eauto. Qed.

Lemma success_well_formed (records : list object) : well_formed (success (pretty records)).
Proof.
  destruct (pretty_defined records) as [t ->].
  split; [now exists t|now left].
Qed.

Lemma failure_well_formed (t : string) : well_formed (failure t).
Proof. split; [now exists t|now right]. Qed.

Lemma failure_reports_error (t : string) : t <> "" -> reports_error (failure t).
Proof. intros H. split; [reflexivity|]. exists t. now split. Qed.

Ltac settle :=
  match goal with
  | |- context [login ?T ?C ?X] => destruct (login T C X) as [[[]|?e] ?w]
  | |- context [fetchCalendars ?T ?C ?X] =>
      destruct (fetchCalendars T C X) as [[?l|?e] ?w]
  | |- context [fetchAddressBooks ?T ?C ?X] =>
      destruct (fetchAddressBooks T C X) as [[?l|?e] ?w]
  | |- context [fetchCalendarObjects ?T ?C ?O ?X] =>
      destruct (fetchCalendarObjects T C O X) as [[?l|?e] ?w]
  | |- context [fetchVCards ?T ?C ?O ?X] =>
      destruct (fetchVCards T C O X) as [[?l|?e] ?w]
  | |- context [fetchObjects ?T ?C ?O ?X] =>
      destruct (fetchObjects T C O X) as [[?l|?e] ?w]
  | |- context [find_by_url ?U ?L] => destruct (find_by_url U L) as [?c|]
  end;
  cbn [world calls rejections Handlers.stderr].

(** X13.  Every handler is a catch-all for the rejections whose reason is
    a value of [JS.value] other than [undefined] and [null], that is plain
    data or an [Error] made of plain data, which [JSON.stringify] serialises
    without throwing: it then returns a well-formed envelope, and if a call
    it awaited was rejected, that envelope has [isError: true] and a
    non-empty text.  (A reason on which [JSON.stringify] throws, a [BigInt]
    or an object with a cycle, is no value of [JS.value]; nothing is
    stated of it.) *)
Lemma handler_catches_rejections {W : Type} (tsdav : Collaborator W)
    (g : Globals) (r : Request) (st : State W) :
  exists rejected,
    rejections (snd (handler tsdav g r st)) = (rejections st ++ rejected)%list
    /\ ((forall e, In e rejected -> nullish e = false) ->
        exists envelope,
          fst (handler tsdav g r st) = inl envelope
          /\ well_formed envelope
          /\ (rejected <> [] -> reports_error envelope)).
Proof.
  assert (Hnone : forall (l : list value) (e : Envelope),
             well_formed e ->
             exists rejected, l = (l ++ rejected)%list
               /\ ((forall x, In x rejected -> nullish x = false) ->
                   exists envelope, inl e = @inl Envelope value envelope
                     /\ well_formed envelope
                     /\ (rejected <> [] -> reports_error envelope))).
  { intros l e He. exists []. split; [now rewrite app_nil_r|].
    intros _. exists e. split; [reflexivity|]. split; [exact He|].
    intros N. now elim N. }
  destruct r; cbn [handler];
    [ destruct (davClient g) | destruct (davClient g)
    | destruct (cardDavClient g) | destruct (cardDavClient g)
    | destruct (webDavClient g) | destruct (webDavClient g) ];
    run_handler; repeat settle; cbn [fst snd rejections];
    try (apply Hnone; first [apply success_well_formed | apply failure_well_formed]);
    match goal with
    | |- context [caught ?label ?prefix ?e ?s] =>
        rewrite (caught_state label prefix e s); cbn [rejections];
        exists [e]; split; [reflexivity|];
        intros Hsafe;
        destruct (caught_returns label prefix e s (Hsafe e (or_introl eq_refl))) as [t ->];
        eexists; split; [reflexivity|];
        split; [apply failure_well_formed|];
        intros _; apply failure_reports_error; discriminate
    end.
Qed.

(** C1, at the failing input.  When the authentication is rejected with
    [undefined], no handler returns an envelope: the catch block reads
    [error.message], that read throws a [TypeError], and the handler's own
    promise is rejected with it. *)
Theorem rejection_with_undefined_escapes :
  forall (DAV_USERNAME DAV_PASSWORD : string) (r : Request) (st : State unit),
    fst (handler (Sample.scripted (Throw VUndefined) [] [])
           (Sample.fastmail_clients DAV_USERNAME DAV_PASSWORD) r st)
    = inr (cannot_read "undefined" "message").
Proof.
  intros DAV_USERNAME DAV_PASSWORD r st. destruct r; reflexivity.
Qed.

(** ** Startup *)

Ltac run_script :=
  cbv beta iota zeta delta
    [main provider_branches Run.bind Run.ret Run.abort Run.modify
     Startup.console_error process_exit new_McpServer server_tool server_connect
     boot env_DAV_PROVIDER env_DAV_USERNAME env_DAV_PASSWORD truthy].

Lemma lower_ascii_case_variant (a b : ascii) :
  case_variant a b -> lower_ascii a = lower_ascii b.
Proof.
  assert (Hup : forall x y, is_upper x = true -> nat_of_ascii y = nat_of_ascii x + 32 ->
                            lower_ascii x = lower_ascii y).
  { intros x y Hx Hy. unfold lower_ascii. rewrite Hx.
    assert (Hy' : is_upper y = false).
    { unfold is_upper in *. rewrite Hy.
      apply andb_true_iff in Hx as [H1 H2].
      apply Nat.leb_le in H1, H2. apply andb_false_iff. right.
      apply Nat.leb_gt. lia. }
    rewrite Hy', <- Hy. now rewrite ascii_nat_embedding. }
  intros [->|[[Ha Hb]|[Hb Ha]]]; [reflexivity|now apply Hup|symmetry; now apply Hup].
Qed.

Lemma toLowerCase_differ_only_in_case (a b : string) :
  differ_only_in_case a b -> toLowerCase a = toLowerCase b.
Proof.
  induction 1 as [|x y s t Hxy _ IH]; [reflexivity|].
  cbn. now rewrite (lower_ascii_case_variant x y Hxy), IH.
Qed.

(** C6.  Provider resolution is a function of the identifier in lower
    case: for every account name and secret, two identifiers that differ
    only in letter case start the process the same way (same addresses, same
    clients, same catalog, or the same refusal).  The branches succeed for
    exactly the identifiers ["fastmail"] and ["icloud"]. *)
Theorem provider_resolution_ignores_case :
  forall (a b : string) (DAV_USERNAME DAV_PASSWORD : option string),
    differ_only_in_case a b ->
    main {| env_DAV_PROVIDER := Some a;
            env_DAV_USERNAME := DAV_USERNAME;
            env_DAV_PASSWORD := DAV_PASSWORD |} boot
    = main {| env_DAV_PROVIDER := Some b;
              env_DAV_USERNAME := DAV_USERNAME;
              env_DAV_PASSWORD := DAV_PASSWORD |} boot
    /\ ((exists g p,
            provider_branches (toLowerCase a) (or_empty DAV_USERNAME)
              (or_empty DAV_PASSWORD) boot = (inl g, p))
        <-> (toLowerCase a = "fastmail" \/ toLowerCase a = "icloud")).
Proof.
  intros a b DAV_USERNAME DAV_PASSWORD H. split.
  - unfold main. cbn [env_DAV_PROVIDER env_DAV_USERNAME env_DAV_PASSWORD].
    now rewrite (toLowerCase_differ_only_in_case a b H).
  - unfold provider_branches. split.
    + intros (g & p & Hrun).
      destruct (String.eqb_spec (toLowerCase a) "fastmail"); [now left|].
      destruct (String.eqb_spec (toLowerCase a) "icloud"); [now right|].
      discriminate Hrun.
    + intros [->| ->]; cbn; do 2 eexists; reflexivity.
Qed.

Lemma provider_resolution_ignores_case_witness :
  main {| env_DAV_PROVIDER := Some "ICloud";
          env_DAV_USERNAME := Some "me@example.com";
          env_DAV_PASSWORD := Some "app-secret" |} boot
  = main {| env_DAV_PROVIDER := Some "icloud";
            env_DAV_USERNAME := Some "me@example.com";
            env_DAV_PASSWORD := Some "app-secret" |} boot.
Proof.
  refine (proj1 (provider_resolution_ignores_case "ICloud" "icloud"
                   (Some "me@example.com") (Some "app-secret") _)).
  repeat (constructor;
          [first [ left; reflexivity
                 | right; left; split; reflexivity
                 | right; right; split; reflexivity ]|]).
  constructor.
Defined.

(** C5.  With credentials present and a supported provider the script runs
    through and connects.  For icloud there is no file client and the
    catalog holds the four calendar and contact tools only: the two file
    tools were never registered, and a call of either is not dispatched to
    any handler.  Otherwise (fastmail) the file client exists and both file
    tools are registered after the other four. *)
Theorem file_tools_registered_iff_supported :
  forall (provider DAV_USERNAME DAV_PASSWORD : string),
    DAV_USERNAME <> "" -> DAV_PASSWORD <> "" ->
    supported (Some provider) = true ->
    exists g p,
      main {| env_DAV_PROVIDER := Some provider;
              env_DAV_USERNAME := Some DAV_USERNAME;
              env_DAV_PASSWORD := Some DAV_PASSWORD |} boot
      = (inl g, p)
      /\ connected p = true
      /\ if toLowerCase provider =? "icloud"
         then webDavClient g = None
              /\ catalog p = calendar_and_contact_tools
              /\ ~ In ListMyFilesAndFolders (catalog p)
              /\ ~ In GetFileOrFolderDetails (catalog p)
              /\ (forall (W : Type) (tsdav : Collaborator W) (st : State W) path fileUrl,
                    call_tool tsdav p g (call_list_my_files_and_folders path) st = (None, st)
                    /\ call_tool tsdav p g (call_get_file_or_folder_details fileUrl) st
                       = (None, st))
         else (exists client, webDavClient g = Some client)
              /\ catalog p = (calendar_and_contact_tools ++ file_tools)%list
              /\ In ListMyFilesAndFolders (catalog p)
              /\ In GetFileOrFolderDetails (catalog p).
Proof.
  intros provider DAV_USERNAME DAV_PASSWORD Hu Hp Hsupported.
  unfold supported in Hsupported.
  apply String.eqb_neq in Hu, Hp.
  run_script. cbn [or_empty]. rewrite Hu, Hp. cbn [negb orb].
  destruct (toLowerCase provider =? "fastmail") eqn:Efast.
  - apply String.eqb_eq in Efast. rewrite Efast. cbn.
    do 2 eexists. split; [reflexivity|]. split; [reflexivity|].
    split; [eexists; reflexivity|]. split; [reflexivity|].
    split; [do 4 right; left; reflexivity|do 5 right; left; reflexivity].
  - cbn in Hsupported. rewrite Hsupported. cbn.
    do 2 eexists. split; [reflexivity|]. split; [reflexivity|].
    split; [reflexivity|]. split; [reflexivity|].
    split; [intros [H|[H|[H|[H|[]]]]]; discriminate H|].
    split; [intros [H|[H|[H|[H|[]]]]]; discriminate H|].
    intros W tsdav st path fileUrl. split; reflexivity.
Qed.

Lemma file_tools_registered_iff_supported_witness :
  exists g p,
    main Sample.icloud_env boot = (inl g, p)
    /\ connected p = true
    /\ webDavClient g = None
    /\ catalog p = calendar_and_contact_tools.
Proof.
  destruct (file_tools_registered_iff_supported "ICLOUD" "me@example.com" "app-secret")
    as (g & p & Hmain & Hconnected & Hclient & Hcatalog & _);
    [discriminate|discriminate|reflexivity|].
  exists g, p. repeat split; assumption.
Defined.

(** C8.  If the account name or the secret is empty (or unset), or the
    provider selector is not a supported one (or unset), the script stops
    before it registers any tool: the process ends with a non-zero status,
    the error channel holds a diagnostic, the catalog is empty, the server
    was never connected, and no request is ever handled. *)
Theorem bad_configuration_stops_startup :
  forall (env : Env),
    or_empty (env_DAV_USERNAME env) = ""
    \/ or_empty (env_DAV_PASSWORD env) = ""
    \/ supported (env_DAV_PROVIDER env) = false ->
    exists halt p,
      main env boot = (inr halt, p)
      /\ exit_status halt <> 0%Z
      /\ error_channel halt p <> []
      /\ catalog p = []
      /\ connected p = false
      /\ forall (W : Type) (tsdav : Collaborator W) (rs : list Request) (st : State W),
           run tsdav env rs st = ([], st).
Proof.
  intros env Hbad.
  assert (Hstop : exists halt p,
             main env boot = (inr halt, p)
             /\ exit_status halt <> 0%Z
             /\ error_channel halt p <> []
             /\ catalog p = []
             /\ connected p = false).
  { destruct env as [provider username password].
    cbn [env_DAV_PROVIDER env_DAV_USERNAME env_DAV_PASSWORD] in Hbad.
    destruct provider as [provider|].
    2:{ do 2 eexists. split; [reflexivity|]. repeat split; discriminate. }
    run_script.
    destruct (or_empty username =? "") eqn:Eu.
    { do 2 eexists. split; [reflexivity|]. repeat split; discriminate. }
    destruct (or_empty password =? "") eqn:Ep.
    { do 2 eexists. split; [reflexivity|]. repeat split; discriminate. }
    apply String.eqb_neq in Eu, Ep.
    destruct Hbad as [H|[H|H]]; [contradiction|contradiction|].
    cbn in H. apply orb_false_iff in H as [Hfast Hicloud].
    cbn [negb orb]. rewrite Hfast, Hicloud.
    do 2 eexists. split; [reflexivity|]. repeat split; discriminate. }
  destruct Hstop as (halt & p & Hmain & Hstatus & Hchannel & Hcatalog & Hconnected).
  exists halt, p. repeat (split; [assumption|]).
  intros W tsdav rs st. unfold run. now rewrite Hmain.
Qed.

Lemma bad_configuration_stops_startup_witness :
  exists halt p,
    main {| env_DAV_PROVIDER := Some "yahoo";
            env_DAV_USERNAME := Some "me@example.com";
            env_DAV_PASSWORD := Some "app-secret" |} boot = (inr halt, p)
    /\ exit_status halt <> 0%Z
    /\ error_channel halt p <> []
    /\ catalog p = []
    /\ connected p = false.
Proof.
  destruct (bad_configuration_stops_startup
              {| env_DAV_PROVIDER := Some "yahoo";
                 env_DAV_USERNAME := Some "me@example.com";
                 env_DAV_PASSWORD := Some "app-secret" |})
    as (halt & p & H1 & H2 & H3 & H4 & H5 & _);
    [right; right; reflexivity|].
  exists halt, p. repeat split; assumption.
Defined.

(** ** Worked examples *)

(** The process started for Fastmail holds the three clients the failing
    run of the handlers above is made with. *)
Lemma main_fastmail_clients (DAV_USERNAME DAV_PASSWORD : string) :
  DAV_USERNAME <> "" -> DAV_PASSWORD <> "" ->
  fst (main {| env_DAV_PROVIDER := Some "Fastmail";
               env_DAV_USERNAME := Some DAV_USERNAME;
               env_DAV_PASSWORD := Some DAV_PASSWORD |} boot)
  = inl (Sample.fastmail_clients DAV_USERNAME DAV_PASSWORD).
Proof.
  intros Hu Hp. apply String.eqb_neq in Hu, Hp.
  run_script. cbn [or_empty]. rewrite Hu, Hp. reflexivity.
Qed.

(** The names in the catalog of a process started for iCloud, in
    [index.js] and in the second script. *)
Example icloud_catalog_names :
  map tool_name (catalog (snd (main Sample.icloud_env boot)))
  = ["get_my_calendars"; "get_calendar_events";
     "get_my_contact_lists"; "get_contacts_from_list"]
  /\ map (qualified_tool_name "icloud") (catalog (snd (main Sample.icloud_env boot)))
     = ["get_my_icloud_calendars"; "get_calendar_events_from_icloud";
        "get_my_icloud_contact_lists"; "get_contacts_from_icloud_list"].
Proof. split; reflexivity. Qed.

Lemma tool_name_injective (t1 t2 : Tool) : tool_name t1 = tool_name t2 -> t1 = t2.
Proof. destruct t1, t2; intros H; try reflexivity; discriminate H. Qed.

(** An address book whose [url] is the supplied string is found: the
    vCards are fetched from it and returned as JSON. *)
Example contacts_of_matching_address_book :
  get_contacts_from_list (Sample.scripted (Normal tt) [] Sample.one_address_book)
    (Some Sample.contact_client) "/abc/" Sample.fresh
  = (inl (success (Some "[]")),
     {| world := tt;
        calls := [Login Sample.contact_client; FetchAddressBooks Sample.contact_client;
                  FetchVCards Sample.contact_client [("url", VStr "/abc/")]];
        rejections := [];
        Handlers.stderr := [] |}).
Proof. reflexivity. Qed.

(** Neither a missing trailing separator nor a difference of case is
    forgiven when a container is looked up. *)
Example lookup_is_exact :
  find_by_url "/abc" Sample.one_address_book = None
  /\ find_by_url "/ABC/" Sample.one_address_book = None
  /\ find_by_url "/abc/" Sample.one_address_book = Some [("url", VStr "/abc/")].
Proof. repeat split. Qed.

(** A rejection with an [Error] is reported with its message; one with an
    [Error] whose message is empty, with the serialised error. *)
Example rejection_with_error_is_reported :
  fst (get_my_calendars (Sample.scripted (Throw (VErr "Network down" [])) [] [])
         (Some Sample.calendar_client) Sample.fresh)
  = inl (failure ("Error listing calendars: " ++ dquote ++ "Network down" ++ dquote))
  /\ fst (get_my_calendars (Sample.scripted (Throw (VErr "" [("code", VNum 503)])) [] [])
            (Some Sample.calendar_client) Sample.fresh)
     = inl (failure ("Error listing calendars: {" ++ dquote ++ "code" ++ dquote ++ ":503}")).
Proof. split; reflexivity. Qed.

(** [JSON.stringify(value, null, 2)] of an array of one record. *)
Example pretty_one_record :
  pretty [[("url", VStr "/abc/"); ("ctag", VUndefined); ("components", VArr [])]]
  = Some ("[" ++ newline ++ "  {" ++ newline
          ++ "    " ++ dquote ++ "url" ++ dquote ++ ": " ++ dquote ++ "/abc/" ++ dquote
          ++ "," ++ newline
          ++ "    " ++ dquote ++ "components" ++ dquote ++ ": []" ++ newline
          ++ "  }" ++ newline ++ "]").
Proof. reflexivity. Qed.

(* ===================================================================== *)
(** * Further properties of the script *)
(* ===================================================================== *)

(** ** What a started process looks like *)

(** The script runs through only with both credentials present and one of
    the two providers, and then its variables and its server are those of
    that provider's branch. *)
Lemma main_success (env : Env) (g : Globals) (p : Process) :
  main env boot = (inl g, p) ->
  exists provider,
    env_DAV_PROVIDER env = Some provider
    /\ or_empty (env_DAV_USERNAME env) <> ""
    /\ or_empty (env_DAV_PASSWORD env) <> ""
    /\ ((toLowerCase provider = "fastmail"
         /\ g = Sample.fastmail_clients (or_empty (env_DAV_USERNAME env))
                  (or_empty (env_DAV_PASSWORD env)))
        \/ (toLowerCase provider = "icloud"
            /\ g = Sample.icloud_clients (or_empty (env_DAV_USERNAME env))
                     (or_empty (env_DAV_PASSWORD env))))
    /\ p = {| Startup.stderr := [];
              server := Some {| name := "DAV MCP (" ++ toLowerCase provider ++ ")";
                                version := "0.1.0";
                                registeredTools :=
                                  calendar_and_contact_tools
                                  ++ match webDavClient g with
                                     | Some _ => file_tools
                                     | None => []
                                     end |};
              connected := true |}.
Proof.
  destruct env as [[provider|] username password]; [|discriminate].
  cbn [env_DAV_PROVIDER env_DAV_USERNAME env_DAV_PASSWORD].
  run_script.
  destruct (or_empty username =? "") eqn:Eu; [discriminate|].
  destruct (or_empty password =? "") eqn:Ep; [discriminate|].
  cbn [negb orb]. apply String.eqb_neq in Eu, Ep.
  destruct (toLowerCase provider =? "fastmail") eqn:Efast.
  - apply String.eqb_eq in Efast. intros [= <- <-].
    exists provider. repeat split; try assumption. now left.
  - destruct (toLowerCase provider =? "icloud") eqn:Eicloud; [|discriminate].
    apply String.eqb_eq in Eicloud. intros [= <- <-].
    exists provider. repeat split; try assumption. now right.
Qed.

(** ** The address of the file listing, for every path *)





(** ** The check of the client *)




(** X1.  The script runs through exactly when both credentials are
    non-empty and the provider, in lower case, is one of the two supported
    ones. *)
Theorem startup_succeeds_iff :
  forall (env : Env),
    (exists g p, main env boot = (inl g, p))
    <-> (or_empty (env_DAV_USERNAME env) <> ""
         /\ or_empty (env_DAV_PASSWORD env) <> ""
         /\ supported (env_DAV_PROVIDER env) = true).
Proof.
  intros env. split.
  - intros (g & p & H).
    destruct (main_success env g p H) as (provider & Hp & Hu & Hpw & Hbranch & _).
    repeat split; try assumption. rewrite Hp. unfold supported.
    destruct Hbranch as [[-> _]|[-> _]]; reflexivity.
  - intros (Hu & Hpw & Hs).
    destruct env as [[provider|] username password]; [|discriminate Hs].
    cbn [env_DAV_PROVIDER env_DAV_USERNAME env_DAV_PASSWORD] in *.
    apply String.eqb_neq in Hu, Hpw. unfold supported in Hs.
    run_script. rewrite Hu, Hpw. cbn [negb orb].
    destruct (toLowerCase provider =? "fastmail").
    + do 2 eexists. reflexivity.
    + cbn in Hs. rewrite Hs. do 2 eexists. reflexivity.
Qed.

(** X2.  A process that has started wrote nothing to the error channel,
    is connected, and its server is named after the provider in lower case,
    has version 0.1.0 and holds the four calendar and contact tools followed
    by the two file tools if and only if the file client exists. *)
Theorem started_server_identity :
  forall (env : Env) (g : Globals) (p : Process),
    main env boot = (inl g, p) ->
    Startup.stderr p = []
    /\ connected p = true
    /\ exists s provider,
         server p = Some s
         /\ env_DAV_PROVIDER env = Some provider
         /\ name s = "DAV MCP (" ++ toLowerCase provider ++ ")"
         /\ version s = "0.1.0"
         /\ registeredTools s
            = (calendar_and_contact_tools
               ++ match webDavClient g with Some _ => file_tools | None => [] end)%list.
Proof.
  intros env g p H.
  destruct (main_success env g p H) as (provider & Hp & _ & _ & _ & ->).
  cbn. repeat split. do 2 eexists. repeat split. exact Hp.
Qed.

Lemma started_server_identity_witness :
  Startup.stderr (snd (main Sample.icloud_env boot)) = []
  /\ connected (snd (main Sample.icloud_env boot)) = true
  /\ exists s provider,
       server (snd (main Sample.icloud_env boot)) = Some s
       /\ env_DAV_PROVIDER Sample.icloud_env = Some provider
       /\ name s = "DAV MCP (" ++ toLowerCase provider ++ ")"
       /\ version s = "0.1.0"
       /\ registeredTools s = (calendar_and_contact_tools ++ [])%list.
Proof.
  exact (started_server_identity Sample.icloud_env
           (Sample.icloud_clients "me@example.com" "app-secret")
           (snd (main Sample.icloud_env boot)) eq_refl).
Defined.

(** ** The two diagnostics *)

(** X3.  The credentials are checked before the provider: when the
    account name or the secret is empty or unset, whatever the provider that
    is set, the process exits with status 1 having written the one line
    that asks for the credentials, and the server was not even created. *)
Theorem credentials_are_checked_first :
  forall (provider : string) (DAV_USERNAME DAV_PASSWORD : option string),
    or_empty DAV_USERNAME = "" \/ or_empty DAV_PASSWORD = "" ->
    main {| env_DAV_PROVIDER := Some provider;
            env_DAV_USERNAME := DAV_USERNAME;
            env_DAV_PASSWORD := DAV_PASSWORD |} boot
    = (inr (Exit 1),
       {| Startup.stderr := [credentials_required]; server := None; connected := false |}).
Proof.
  intros provider DAV_USERNAME DAV_PASSWORD H. run_script.
  destruct H as [H|H]; rewrite H; cbn [String.eqb negb orb]; [reflexivity|].
  now rewrite orb_true_r.
Qed.

Lemma credentials_are_checked_first_witness :
  main {| env_DAV_PROVIDER := Some "yahoo";
          env_DAV_USERNAME := Some "me@example.com";
          env_DAV_PASSWORD := None |} boot
  = (inr (Exit 1),
     {| Startup.stderr := [credentials_required]; server := None; connected := false |}).
Proof.
  exact (credentials_are_checked_first "yahoo" (Some "me@example.com") None
           (or_intror eq_refl)).
Defined.

(** X4.  With both credentials present, a provider written in ASCII that
    is neither fastmail nor icloud in lower case makes the process exit with
    status 1 after one line that names the provider as lower-cased, not as
    given; the server then exists, named after that provider, with no tool
    on it. *)
Theorem unsupported_provider_is_named_in_lower_case :
  forall (provider DAV_USERNAME DAV_PASSWORD : string),
    ascii_only provider = true ->
    DAV_USERNAME <> "" -> DAV_PASSWORD <> "" ->
    supported (Some provider) = false ->
    main {| env_DAV_PROVIDER := Some provider;
            env_DAV_USERNAME := Some DAV_USERNAME;
            env_DAV_PASSWORD := Some DAV_PASSWORD |} boot
    = (inr (Exit 1),
       {| Startup.stderr := [unsupported_provider (toLowerCase provider)];
          server := Some {| name := "DAV MCP (" ++ toLowerCase provider ++ ")";
                            version := "0.1.0";
                            registeredTools := [] |};
          connected := false |}).
Proof.
  intros provider DAV_USERNAME DAV_PASSWORD _ Hu Hp Hs.
  apply String.eqb_neq in Hu, Hp. cbn in Hs. apply orb_false_iff in Hs as [Hf Hi].
  run_script. cbn [or_empty]. rewrite Hu, Hp. cbn [negb orb]. now rewrite Hf, Hi.
Qed.

Lemma unsupported_provider_is_named_in_lower_case_witness :
  fst (main {| env_DAV_PROVIDER := Some "Yahoo";
               env_DAV_USERNAME := Some "me@example.com";
               env_DAV_PASSWORD := Some "app-secret" |} boot) = inr (Exit 1)
  /\ Startup.stderr (snd (main {| env_DAV_PROVIDER := Some "Yahoo";
                                  env_DAV_USERNAME := Some "me@example.com";
                                  env_DAV_PASSWORD := Some "app-secret" |} boot))
     = [unsupported_provider "yahoo"].
Proof.
  pose proof (unsupported_provider_is_named_in_lower_case "Yahoo" "me@example.com"
                "app-secret") as H.
  rewrite H; [split; reflexivity|reflexivity|discriminate|discriminate|reflexivity].
Defined.

(** ** The clients of a started process *)

(** X5.  Every client of a started process carries the account name and
    the secret of the environment and authenticates with the Basic scheme. *)
Theorem clients_share_the_credentials :
  forall (env : Env) (g : Globals) (p : Process) (client : DAVClient),
    main env boot = (inl g, p) ->
    In (Some client) [davClient g; cardDavClient g; webDavClient g] ->
    credentials client
    = {| username := or_empty (env_DAV_USERNAME env);
         password := or_empty (env_DAV_PASSWORD env) |}
    /\ authMethod client = "Basic".
Proof.
  intros env g p client H Hin.
  destruct (main_success env g p H) as (provider & _ & _ & _ & Hbranch & _).
  destruct Hbranch as [[_ ->]|[_ ->]]; cbn in Hin;
    destruct Hin as [E|[E|[E|[]]]]; try discriminate E;
    injection E as <-; split; reflexivity.
Qed.

Lemma clients_share_the_credentials_witness :
  credentials Sample.calendar_client
  = {| username := "me@example.com"; password := "app-secret" |}
  /\ authMethod Sample.calendar_client = "Basic".
Proof.
  exact (clients_share_the_credentials Sample.icloud_env
           (Sample.icloud_clients "me@example.com" "app-secret")
           (snd (main Sample.icloud_env boot)) Sample.calendar_client
           eq_refl (or_introl eq_refl)).
Defined.

(** X6.  In a started process the calendar and the contact client always
    exist, each client is bound to the address held in the variable of its
    protocol and has that protocol's account type, and the file client
    exists exactly when the file address does. *)
Theorem clients_are_bound_to_their_addresses :
  forall (env : Env) (g : Globals) (p : Process),
    main env boot = (inl g, p) ->
    (exists calendar contact,
        davClient g = Some calendar /\ cardDavClient g = Some contact
        /\ defaultAccountType calendar = "caldav"
        /\ defaultAccountType contact = "carddav")
    /\ option_map serverUrl (davClient g) = calDavServerUrl g
    /\ option_map serverUrl (cardDavClient g) = cardDavServerUrl g
    /\ option_map serverUrl (webDavClient g) = webDavServerUrl g
    /\ option_map defaultAccountType (webDavClient g)
       = option_map (fun _ => "webdav") (webDavServerUrl g).
Proof.
  intros env g p H.
  destruct (main_success env g p H) as (provider & _ & _ & _ & Hbranch & _).
  destruct Hbranch as [[_ ->]|[_ ->]]; (split; [do 2 eexists|]); repeat split.
Qed.

Lemma clients_are_bound_to_their_addresses_witness :
  option_map serverUrl (webDavClient (Sample.icloud_clients "me@example.com" "app-secret"))
  = webDavServerUrl (Sample.icloud_clients "me@example.com" "app-secret").
Proof.
  exact (proj1 (proj2 (proj2 (proj2
           (clients_are_bound_to_their_addresses Sample.icloud_env
              (Sample.icloud_clients "me@example.com" "app-secret")
              (snd (main Sample.icloud_env boot)) eq_refl))))).
Defined.

Lemma append_separator_inv (a b : string) : a ++ "/" = b ++ "/" -> a = b.
Proof.
  intros H. rewrite <- (slice_app_separator a), <- (slice_app_separator b).
  now rewrite H.
Qed.

(** X7.  The file address identifies the account: two started processes
    that have the same file address were started with the same account
    name.  (The calendar and contact addresses of iCloud, by contrast, are
    the same for every account.) *)
Theorem file_address_identifies_the_account :
  forall (env1 env2 : Env) (g1 g2 : Globals) (p1 p2 : Process) (address : string),
    main env1 boot = (inl g1, p1) ->
    main env2 boot = (inl g2, p2) ->
    webDavServerUrl g1 = Some address ->
    webDavServerUrl g2 = Some address ->
    or_empty (env_DAV_USERNAME env1) = or_empty (env_DAV_USERNAME env2).
Proof.
  intros env1 env2 g1 g2 p1 p2 address H1 H2 A1 A2.
  destruct (main_success env1 g1 p1 H1) as (provider1 & _ & _ & _ & B1 & _).
  destruct (main_success env2 g2 p2 H2) as (provider2 & _ & _ & _ & B2 & _).
  destruct B1 as [[_ ->]|[_ ->]]; [|discriminate A1].
  destruct B2 as [[_ ->]|[_ ->]]; [|discriminate A2].
  rewrite <- A2 in A1. clear A2.
  change (Some ("https://webdav.fastmail.com/dav/principals/user/"
                ++ (or_empty (env_DAV_USERNAME env1) ++ "/"))
          = Some ("https://webdav.fastmail.com/dav/principals/user/"
                  ++ (or_empty (env_DAV_USERNAME env2) ++ "/"))) in A1.
  injection A1 as A1. now apply append_separator_inv.
Qed.

Lemma file_address_identifies_the_account_witness :
  or_empty (Some "me@example.com") = or_empty (Some "me@example.com").
Proof.
  exact (file_address_identifies_the_account
           {| env_DAV_PROVIDER := Some "fastmail";
              env_DAV_USERNAME := Some "me@example.com";
              env_DAV_PASSWORD := Some "app-secret" |}
           {| env_DAV_PROVIDER := Some "FastMail";
              env_DAV_USERNAME := Some "me@example.com";
              env_DAV_PASSWORD := Some "other-secret" |}
           (Sample.fastmail_clients "me@example.com" "app-secret")
           (Sample.fastmail_clients "me@example.com" "other-secret")
           _ _ "https://webdav.fastmail.com/dav/principals/user/me@example.com/"
           eq_refl eq_refl eq_refl eq_refl).
Defined.

(** ** The names in the catalog *)

Lemma length_append (a b : string) :
  String.length (a ++ b) = String.length a + String.length b.
Proof. induction a as [|c a IH]; cbn; [reflexivity|now rewrite IH]. Qed.

Lemma qualified_tool_name_injective (DAV_PROVIDER : string) (t1 t2 : Tool) :
  qualified_tool_name DAV_PROVIDER t1 = qualified_tool_name DAV_PROVIDER t2 -> t1 = t2.
Proof.
  intros H. apply (f_equal String.length) in H.
  destruct t1, t2; try reflexivity; exfalso;
    cbn in H; rewrite ?length_append in H; cbn in H; lia.
Qed.

(** X8.  No two tools of a started process are registered under the same
    name, in [index.js] as in the second script (whose names carry the
    provider): no registration can collide with an earlier one. *)
Theorem registered_names_are_distinct :
  forall (env : Env) (g : Globals) (p : Process) (DAV_PROVIDER : string),
    main env boot = (inl g, p) ->
    NoDup (map tool_name (catalog p))
    /\ NoDup (map (qualified_tool_name DAV_PROVIDER) (catalog p)).
Proof.
  intros env g p DAV_PROVIDER H.
  destruct (main_success env g p H) as (provider & _ & _ & _ & Hbranch & ->).
  assert (Hcatalog : NoDup (calendar_and_contact_tools
                            ++ match webDavClient g with
                               | Some _ => file_tools
                               | None => []
                               end)).
  { destruct Hbranch as [[_ ->]|[_ ->]]; cbn;
      repeat (constructor; [cbn; intuition discriminate|]); constructor. }
  cbn [catalog server registeredTools]. split.
  - apply Injective_map_NoDup; [|exact Hcatalog].
    intros t1 t2. apply tool_name_injective.
  - apply Injective_map_NoDup; [|exact Hcatalog].
    intros t1 t2. apply qualified_tool_name_injective.
Qed.

Lemma registered_names_are_distinct_witness :
  NoDup (map tool_name (catalog (snd (main Sample.icloud_env boot))))
  /\ NoDup (map (qualified_tool_name "icloud") (catalog (snd (main Sample.icloud_env boot)))).
Proof.
  exact (registered_names_are_distinct Sample.icloud_env
           (Sample.icloud_clients "me@example.com" "app-secret")
           (snd (main Sample.icloud_env boot)) "icloud" eq_refl).
Defined.

(* ===================================================================== *)
(** * Further properties of the handlers *)
(* ===================================================================== *)

(** ** The calls of a run *)

Ltac run_request r H :=
  destruct r; cbn [tool_of required_client] in H; cbn [handler tool_of];
  rewrite ?H; run_handler; repeat settle;
  rewrite ?caught_state;
  cbn [fst snd world calls rejections Handlers.stderr];
  rewrite <- ?app_assoc; cbn [app].

(** X9.  Every handler whose client exists authenticates that client
    first and once, then makes at most two fetches, all on that same client;
    if the authentication is rejected it makes no fetch at all. *)
Theorem authentication_comes_first :
  forall (W : Type) (tsdav : Collaborator W) (g : Globals) (r : Request)
         (st : State W) (client : DAVClient),
    required_client g (tool_of r) = Some client ->
    exists fetches,
      calls (snd (handler tsdav g r st)) = (calls st ++ Login client :: fetches)%list
      /\ (forall c, In c fetches -> is_login c = false /\ client_of c = client)
      /\ List.length fetches <= 2
      /\ match fst (login tsdav client (world st)) with
         | Throw _ => fetches = []
         | Normal _ => True
         end.
Proof.
  intros W tsdav g r st client H.
  run_request r H;
    (eexists; split; [reflexivity|]; split;
     [ intros made Hin; cbn in Hin;
       repeat (destruct Hin as [<-|Hin]; [split; reflexivity|]); contradiction
     | split; [cbn; lia|exact I || reflexivity] ]).
Qed.

Lemma authentication_comes_first_witness :
  exists fetches,
    calls (snd (handler (Sample.scripted (Normal tt) Sample.two_calendars [])
                  (Sample.icloud_clients "me@example.com" "app-secret")
                  (call_get_calendar_events "B" None None) Sample.fresh))
    = (calls Sample.fresh ++ Login Sample.calendar_client :: fetches)%list
    /\ (forall c, In c fetches -> is_login c = false /\ client_of c = Sample.calendar_client)
    /\ List.length fetches <= 2.
Proof.
  destruct (authentication_comes_first unit
              (Sample.scripted (Normal tt) Sample.two_calendars [])
              (Sample.icloud_clients "me@example.com" "app-secret")
              (call_get_calendar_events "B" None None) Sample.fresh
              Sample.calendar_client eq_refl) as (fetches & H1 & H2 & H3 & _).
  exists fetches. repeat split; try assumption; now apply H2.
Defined.

(** ** The log *)

(** X10.  A handler whose client exists writes to the log exactly once
    for each rejected call, which is at most once in a run: the line holds
    the label of the tool and the reason as it was received.  A run in which
    every call was fulfilled logs nothing, a container that is not found
    included. *)
Theorem every_rejection_is_logged_once :
  forall (W : Type) (tsdav : Collaborator W) (g : Globals) (r : Request)
         (st : State W) (client : DAVClient),
    required_client g (tool_of r) = Some client ->
    exists rejected,
      rejections (snd (handler tsdav g r st)) = (rejections st ++ rejected)%list
      /\ List.length rejected <= 1
      /\ Handlers.stderr (snd (handler tsdav g r st))
         = (Handlers.stderr st
            ++ map (fun e => (log_label (tool_of r), e)) rejected)%list.
Proof.
  intros W tsdav g r st client H.
  run_request r H;
    first [ exists []; cbn [map List.length]; rewrite !app_nil_r; repeat split; lia
          | eexists; split; [reflexivity|]; split; [cbn; lia|reflexivity] ].
Qed.

Lemma every_rejection_is_logged_once_witness :
  exists rejected,
    rejections (snd (handler (Sample.scripted (Throw (VStr "offline")) [] [])
                       (Sample.icloud_clients "me@example.com" "app-secret")
                       call_get_my_contact_lists Sample.fresh))
    = (rejections Sample.fresh ++ rejected)%list
    /\ List.length rejected <= 1
    /\ Handlers.stderr (snd (handler (Sample.scripted (Throw (VStr "offline")) [] [])
                               (Sample.icloud_clients "me@example.com" "app-secret")
                               call_get_my_contact_lists Sample.fresh))
       = (Handlers.stderr Sample.fresh
          ++ map (fun e => ("Error in get_my_contact_lists:", e)) rejected)%list.
Proof.
  exact (every_rejection_is_logged_once unit
           (Sample.scripted (Throw (VStr "offline")) [] [])
           (Sample.icloud_clients "me@example.com" "app-secret")
           call_get_my_contact_lists Sample.fresh Sample.contact_client eq_refl).
Defined.

(** ** The text of an error envelope *)


Lemma caught_nullish {W : Type} (label prefix : string) (error : value) (st : State W) :
  nullish error = true ->
  fst (caught label prefix error st)
  = inr (cannot_read (match error with VNull => "null" | _ => "undefined" end) "message").
Proof. destruct error; try discriminate; reflexivity. Qed.

Lemma caught_is_failure {W : Type} (label prefix : string) (error : value)
    (st : State W) (envelope : Envelope) :
  fst (caught label prefix error st) = inl envelope -> isError envelope = Some true.
Proof.
  unfold caught, console_error, eval, Run.bind, Run.modify, Run.ret, Run.abort.
  destruct error; cbn; intros [= <-] || discriminate; reflexivity.
Qed.

Lemma no_rejection_absurd (l : list value) (e : value) : l <> (l ++ [e])%list.
Proof.
  intros H. apply (f_equal (@List.length value)) in H.
  rewrite length_app in H. cbn in H. lia.
Qed.

Ltac run_request_with r H :=
  revert H; destruct r; cbn [handler tool_of];
  [ destruct (davClient _) | destruct (davClient _)
  | destruct (cardDavClient _) | destruct (cardDavClient _)
  | destruct (webDavClient _) | destruct (webDavClient _) ];
  run_handler; repeat settle;
  rewrite ?caught_state;
  cbn [snd world calls rejections Handlers.stderr];
  intros H.



(** X12.  When a call is rejected with [undefined] or [null], whatever
    the tool and whichever call it was, the handler returns no envelope: it
    ends with the [TypeError] of the read of [message] on that reason. *)
Theorem nullish_rejection_escapes :
  forall (W : Type) (tsdav : Collaborator W) (g : Globals) (r : Request)
         (st : State W) (reason : value),
    rejections (snd (handler tsdav g r st)) = (rejections st ++ [reason])%list ->
    nullish reason = true ->
    fst (handler tsdav g r st)
    = inr (cannot_read (match reason with VNull => "null" | _ => "undefined" end)
             "message").
Proof.
  intros W tsdav g r st reason H Hnull.
  run_request_with r H;
    try (exfalso; exact (no_rejection_absurd _ _ H));
    apply app_inv_head in H; injection H as ->;
    now apply caught_nullish.
Qed.

Lemma nullish_rejection_escapes_witness :
  fst (handler (Sample.scripted (Throw VNull) [] [])
         (Sample.icloud_clients "me@example.com" "app-secret")
         (call_get_contacts_from_list "/abc/") Sample.fresh)
  = inr (cannot_read "null" "message").
Proof.
  exact (nullish_rejection_escapes unit (Sample.scripted (Throw VNull) [] [])
           (Sample.icloud_clients "me@example.com" "app-secret")
           (call_get_contacts_from_list "/abc/") Sample.fresh VNull eq_refl eq_refl).
Defined.

(** X14.  An envelope without [isError] means that every call of the run
    was fulfilled and nothing was logged; the envelope then holds one text
    block, and its text is a string. *)
Theorem success_means_every_call_was_fulfilled :
  forall (W : Type) (tsdav : Collaborator W) (g : Globals) (r : Request)
         (st : State W) (envelope : Envelope),
    fst (handler tsdav g r st) = inl envelope ->
    isError envelope = None ->
    rejections (snd (handler tsdav g r st)) = rejections st
    /\ Handlers.stderr (snd (handler tsdav g r st)) = Handlers.stderr st
    /\ exists t, content envelope = [ {| type := "text"; text := Some t |} ].
Proof.
  intros W tsdav g r st envelope H Hok. revert Hok.
  run_request_with r H; intros Hok;
    try (apply caught_is_failure in H; congruence);
    cbn [fst] in H; injection H as <-; try discriminate Hok;
    (split; [reflexivity|]; split; [reflexivity|]);
    match goal with
    | |- context [pretty ?records] =>
        destruct (pretty_defined records) as [t Ht]; exists t;
        unfold success; cbn [content]; now rewrite Ht
    end.
Qed.

Lemma success_means_every_call_was_fulfilled_witness :
  rejections (snd (handler (Sample.scripted (Normal tt) Sample.two_calendars [])
                     (Sample.icloud_clients "me@example.com" "app-secret")
                     call_get_my_calendars Sample.fresh)) = []
  /\ Handlers.stderr (snd (handler (Sample.scripted (Normal tt) Sample.two_calendars [])
                             (Sample.icloud_clients "me@example.com" "app-secret")
                             call_get_my_calendars Sample.fresh)) = []
  /\ exists t,
       content (success (pretty Sample.two_calendars))
       = [ {| type := "text"; text := Some t |} ].
Proof.
  exact (success_means_every_call_was_fulfilled unit
           (Sample.scripted (Normal tt) Sample.two_calendars [])
           (Sample.icloud_clients "me@example.com" "app-secret")
           call_get_my_calendars Sample.fresh
           (success (pretty Sample.two_calendars)) eq_refl eq_refl).
Defined.

(** ** Successful runs *)







(** ** More on the address of the file listing *)

Lemma list_files_calls {W : Type} (tsdav : Collaborator W) (client : DAVClient)
    (path : option string) (st : State W) (w : W) :
  login tsdav client (world st) = (Normal tt, w) ->
  calls (snd (list_my_files_and_folders tsdav (Some client) path st))
  = (calls st ++ [Login client;
                  FetchObjects client (collectionUrl (serverUrl client) path)])%list.
Proof.
  intros Hlogin. run_handler. rewrite Hlogin.
  cbn [world calls rejections Handlers.stderr].
  destruct (fetchObjects tsdav client _ w) as [[objects|e] w'];
    rewrite ?caught_state; cbn [snd calls]; now rewrite <- app_assoc.
Qed.

(** X18.  A separator at the end of the base and a separator at the start
    of the path make no difference: for a base [b] without trailing
    separator and a non-empty path [p] without leading separator, the four
    spellings [b] or [b/] with [p] or [/p] all give [b/p]. *)
Theorem separators_are_normalised :
  forall (b p : string),
    endsWith b "/" = false -> startsWith p "/" = false -> p <> "" ->
    collectionUrl b (Some p) = b ++ "/" ++ p
    /\ collectionUrl (b ++ "/") (Some p) = b ++ "/" ++ p
    /\ collectionUrl b (Some (String "/" p)) = b ++ "/" ++ p
    /\ collectionUrl (b ++ "/") (Some (String "/" p)) = b ++ "/" ++ p.
Proof.
  intros b p Hb Hp Hne.
  assert (E1 : (p =? "") = false) by now apply String.eqb_neq.
  assert (E2 : (p =? "/") = false).
  { apply String.eqb_neq. intros ->. discriminate Hp. }
  assert (E3 : (String "/" p =? "/") = false).
  { apply String.eqb_neq. intros [= ->]. now apply Hne. }
  unfold collectionUrl, truthy_arg.
  rewrite E1, E2, E3, Hb, Hp, endsWith_app_separator, slice_app_separator.
  cbn. repeat split.
Qed.

Lemma separators_are_normalised_witness :
  collectionUrl "https://host/root" (Some "Documents") = "https://host/root/Documents"
  /\ collectionUrl "https://host/root/" (Some "Documents") = "https://host/root/Documents"
  /\ collectionUrl "https://host/root" (Some "/Documents") = "https://host/root/Documents"
  /\ collectionUrl "https://host/root/" (Some "/Documents") = "https://host/root/Documents".
Proof.
  refine (separators_are_normalised "https://host/root" "Documents" eq_refl eq_refl _).
  discriminate.
Defined.

(** X19.  Only one separator is stripped on each side: a base that ends
    with two separators keeps one of them and a path that starts with two
    keeps one of them, so that three separators stand between the two in
    the address. *)
Theorem doubled_separators_are_kept :
  forall (b p : string),
    collectionUrl (b ++ "//") (Some (String "/" (String "/" p)))
    = b ++ "///" ++ p.
Proof.
  intros b p.
  assert (A : forall a c d : string, a ++ (c ++ d) = (a ++ c) ++ d).
  { intros a c d. induction a as [|x a IH]; [reflexivity|]. cbn. now rewrite IH. }
  assert (E1 : (String "/" (String "/" p) =? "") = false) by reflexivity.
  assert (E2 : (String "/" (String "/" p) =? "/") = false) by reflexivity.
  unfold collectionUrl, truthy_arg. rewrite E1, E2.
  change (b ++ "//") with (b ++ ("/" ++ "/")).
  rewrite (A b "/" "/"), endsWith_app_separator, slice_app_separator.
  cbn [negb andb startsWith substring_1 Ascii.eqb Bool.eqb].
  change (b ++ "///" ++ p) with (b ++ ("/" ++ ("/" ++ String "/" p))).
  now rewrite (A b "/").
Qed.

(** X20.  In a process started for Fastmail, a listing at a path other
    than the empty one and [/] is fetched, once the client is authenticated,
    at the Fastmail file address of the account followed by the path
    without its leading separator. *)
Theorem fastmail_listing_address :
  forall (W : Type) (tsdav : Collaborator W) (env : Env) (g : Globals) (p : Process)
         (client : DAVClient) (path relative : string) (st : State W) (w : W),
    main env boot = (inl g, p) ->
    webDavClient g = Some client ->
    login tsdav client (world st) = (Normal tt, w) ->
    path <> "" -> path <> "/" ->
    strip_leading path relative ->
    calls (snd (handler tsdav g (call_list_my_files_and_folders (Some path)) st))
    = (calls st
       ++ [Login client;
           FetchObjects client
             ("https://webdav.fastmail.com/dav/principals/user/"
              ++ or_empty (env_DAV_USERNAME env) ++ "/" ++ relative)])%list.
Proof.
  intros W tsdav env g p client path relative st w Hmain Hclient Hlogin Hne Hsep Hstrip.
  assert (A : forall a b c : string, a ++ (b ++ c) = (a ++ b) ++ c).
  { intros a b c. induction a as [|x a IH]; [reflexivity|]. cbn. now rewrite IH. }
  assert (Hurl : serverUrl client
                 = ("https://webdav.fastmail.com/dav/principals/user/"
                    ++ or_empty (env_DAV_USERNAME env)) ++ "/").
  { destruct (main_success env g p Hmain) as (provider & _ & _ & _ & Hbranch & _).
    destruct Hbranch as [[_ ->]|[_ ->]]; [|discriminate Hclient].
    injection Hclient as <-. rewrite <- A. reflexivity. }
  assert (Haddress : collectionUrl (serverUrl client) (Some path)
                     = "https://webdav.fastmail.com/dav/principals/user/"
                       ++ or_empty (env_DAV_USERNAME env) ++ "/" ++ relative).
  { apply (stripped_and_joined_functional (serverUrl client) path);
      [now apply collectionUrl_stripped_and_joined|].
    exists ("https://webdav.fastmail.com/dav/principals/user/"
            ++ or_empty (env_DAV_USERNAME env)), relative.
    split; [rewrite Hurl; constructor|].
    split; [exact Hstrip|]. now rewrite <- A. }
  cbn [handler]. rewrite Hclient, (list_files_calls tsdav client (Some path) st w Hlogin).
  now rewrite Haddress.
Qed.

Lemma fastmail_listing_address_witness :
  calls (snd (handler (Sample.scripted (Normal tt) [] [])
                (Sample.fastmail_clients "me@example.com" "app-secret")
                (call_list_my_files_and_folders (Some "/Documents/Work")) Sample.fresh))
  = [Login (new_DAVClient "https://webdav.fastmail.com/dav/principals/user/me@example.com/"
              "me@example.com" "app-secret" "webdav");
     FetchObjects
       (new_DAVClient "https://webdav.fastmail.com/dav/principals/user/me@example.com/"
          "me@example.com" "app-secret" "webdav")
       "https://webdav.fastmail.com/dav/principals/user/me@example.com/Documents/Work"].
Proof.
  refine (fastmail_listing_address unit (Sample.scripted (Normal tt) [] [])
            {| env_DAV_PROVIDER := Some "fastmail";
               env_DAV_USERNAME := Some "me@example.com";
               env_DAV_PASSWORD := Some "app-secret" |}
            (Sample.fastmail_clients "me@example.com" "app-secret") _
            _ "/Documents/Work" "Documents/Work" Sample.fresh tt
            eq_refl eq_refl eq_refl _ _ _); try discriminate.
  constructor.
Defined.
